(** * picow-timer-emu: the pulse generator (main.c) and the console (cmd.c)

    A shallow embedding of the two C sources of the firmware.

    - [main.c]: the globals [frequency], [duty_cycle], [mode], [pulse] and
      [last_interrupt_ms]; the button interrupt handler; the ADC worker's
      frequency scaling; and the body of the [while(true)] pulse loop.
    - [cmd.c]: the polled console ([cmd_timer_callback]) with its static line
      buffer, and the command interpreter ([cmd_execute]), written against the
      interface of [clock.h].

    C [int] and [uint32_t] values are integers of [Z]; conversions to an
    unsigned type are written out as a reduction modulo a power of two, and
    the operations C leaves undefined (division by zero, signed overflow, an
    [atoi] result that does not fit) make the embedded function return
    [None] / [Undefined]. *)

From Stdlib Require Import ZArith NArith List Ascii String Bool Lia.
From stdpp Require Import base list strings.

Open Scope Z_scope.

(* ================================================================= *)
(** ** C integer types *)

Definition INT_MIN : Z := - 2 ^ 31.
Definition INT_MAX : Z := 2 ^ 31 - 1.

(** [int] is 32 bits wide on the RP2040. *)
Definition in_int (z : Z) : bool := (INT_MIN <=? z) && (z <=? INT_MAX).

(** Conversion to [uint32_t], [u_int16_t], [u_int8_t]. *)
Definition to_uint32 (z : Z) : Z := z mod 2 ^ 32.
Definition to_uint16 (z : Z) : Z := z mod 2 ^ 16.
Definition to_uint8 (z : Z) : Z := z mod 2 ^ 8.

(** Conversion of an integer of a wider or unsigned type to [int]: the
    value is reduced modulo 2^32 into the range of [int] (the behaviour GCC
    defines for this conversion). *)
Definition to_int (z : Z) : Z := (z + 2 ^ 31) mod 2 ^ 32 - 2 ^ 31.

(* ================================================================= *)
(** ** main.c *)

Module Main.

(** [#define ASTABLE 0], [#define MONOSTABLE 1], [#define DEBOUNCE_DELAY 200] *)
Definition ASTABLE : Z := 0.
Definition MONOSTABLE : Z := 1.
Definition DEBOUNCE_DELAY : Z := 200.

Definition POTENTIOMETER_PIN : Z := 26.
Definition MODE_PIN : Z := 14.
Definition STEP_PIN : Z := 15.
Definition PULSE_PIN : Z := 16.
Definition CLOCK_PIN : Z := 28.

(** C's [true] and [false], stored into the [int] variable [pulse]. *)
Definition true_ : Z := 1.
Definition false_ : Z := 0.

(** The volatile globals of main.c. *)
Record globals : Type := Globals {
  frequency : Z;          (* volatile int, Hz *)
  duty_cycle : Z;         (* volatile int, percent *)
  mode : Z;               (* volatile int *)
  pulse : Z;              (* volatile int *)
  last_interrupt_ms : Z   (* volatile uint32_t *)
}.

(** The initialisers of the globals. *)
Definition initial : globals :=
  {| frequency := 1; duty_cycle := 50; mode := ASTABLE; pulse := true_;
     last_interrupt_ms := 0 |}.

Definition set_frequency (v : Z) (g : globals) : globals :=
  {| frequency := v; duty_cycle := duty_cycle g; mode := mode g;
     pulse := pulse g; last_interrupt_ms := last_interrupt_ms g |}.
Definition set_mode (v : Z) (g : globals) : globals :=
  {| frequency := frequency g; duty_cycle := duty_cycle g; mode := v;
     pulse := pulse g; last_interrupt_ms := last_interrupt_ms g |}.
Definition set_pulse (v : Z) (g : globals) : globals :=
  {| frequency := frequency g; duty_cycle := duty_cycle g; mode := mode g;
     pulse := v; last_interrupt_ms := last_interrupt_ms g |}.
Definition set_last_interrupt_ms (v : Z) (g : globals) : globals :=
  {| frequency := frequency g; duty_cycle := duty_cycle g; mode := mode g;
     pulse := pulse g; last_interrupt_ms := v |}.

(** *** handle_button_interrupt *)

(** The debounce guard of the handler,
    [(now - last_interrupt_ms) < DEBOUNCE_DELAY], in [uint32_t] arithmetic:
    [true] when the edge is dropped. *)
Definition debounced (now : Z) (g : globals) : bool :=
  to_uint32 (now - last_interrupt_ms g) <? DEBOUNCE_DELAY.

(** [handle_button_interrupt gpio now g]: the handler run on an edge of pin
    [gpio], where [now] is the value read from
    [to_ms_since_boot(get_absolute_time())]. The [events] argument is not
    used by the source. *)
Definition handle_button_interrupt (gpio : Z) (now : Z) (g : globals) : globals :=
  if debounced now g then g
  else
    let g1 :=
      if gpio =? MODE_PIN then
        (* mode = mode == ASTABLE ? MONOSTABLE : ASTABLE; *)
        let g' := set_mode (if mode g =? ASTABLE then MONOSTABLE else ASTABLE) g in
        (* pulse = mode == MONOSTABLE ? false : true; *)
        set_pulse (if mode g' =? MONOSTABLE then false_ else true_) g'
      else if (gpio =? STEP_PIN) && (mode g =? MONOSTABLE) then
        set_pulse true_ g
      else g in
    set_last_interrupt_ms now g1.

(** *** start_adc *)

(** One round of the worker on core 1: [reads] are the values returned by
    the 64 calls of [adc_read] inside the [for] loop; their sum is averaged,
    scaled and stored into [frequency]. *)
Definition adc_scale (reads : list Z) : Z :=
  let samples := 64 in
  let sum := fold_left Z.add reads 0 in
  let sum := Z.quot sum samples in
  Z.quot (sum * 999) 4095 + 1.

Definition start_adc_round (reads : list Z) (g : globals) : globals :=
  set_frequency (adc_scale reads) g.

(** *** The pulse loop of main *)

(** What the loop does to the outside. *)
Inductive action : Type :=
| printf_debug (mode frequency duty_cycle high_time low_time : Z)
| gpio_put (pin value : Z)
| sleep_ms (ms : Z).

Section Build.

(** The build's macros [CLOCK_FREQ] and [CLOCK_DEBUG] (compile definitions,
    not part of the sources). *)
Variable CLOCK_FREQ : Z.
Variable CLOCK_DEBUG : Z.

(** The frequency set-up of [main] before the loop: a fixed frequency when
    [CLOCK_FREQ && CLOCK_FREQ > 0], the ADC worker otherwise. The test is
    on the macro's value, in the type of its constant; the assignment
    converts that value to the [int] variable [frequency]. The result tells
    whether core 1 was launched. *)
Definition main_setup (g : globals) : globals * bool :=
  if negb (CLOCK_FREQ =? 0) && (0 <? CLOCK_FREQ)
  then (set_frequency (to_int CLOCK_FREQ) g, false)
  else (g, true).

(** [int sleep_in_ms = 1000 / frequency;] C's [/] truncates toward zero
    ([Z.quot]); it is undefined for a zero divisor. *)
Definition sleep_in_ms (g : globals) : option Z :=
  if frequency g =? 0 then None else Some (Z.quot 1000 (frequency g)).

(** [int high_time = sleep_in_ms * duty_cycle / 100;] undefined when the
    product overflows [int]. *)
Definition high_time (g : globals) : option Z :=
  match sleep_in_ms g with
  | None => None
  | Some p =>
      if in_int (p * duty_cycle g) then Some (Z.quot (p * duty_cycle g) 100)
      else None
  end.

(** [int low_time = sleep_in_ms - high_time;] *)
Definition low_time (g : globals) : option Z :=
  match sleep_in_ms g, high_time g with
  | Some p, Some h => if in_int (p - h) then Some (p - h) else None
  | _, _ => None
  end.

Definition debug_output (g : globals) (h l : Z) : list action :=
  if CLOCK_DEBUG =? 0 then []
  else [printf_debug (mode g) (frequency g) (duty_cycle g) h l].

(** One iteration of [while(true)], run without an interrupt or a write of
    core 1 in between: the actions performed and the globals afterwards;
    [None] when the iteration's arithmetic is undefined. [sleep_ms] takes a
    [uint32_t]. *)
Definition loop_body (g : globals) : option (list action * globals) :=
  if pulse g =? 0 then Some ([], g)          (* if (!pulse) continue; *)
  else
    match high_time g, low_time g with
    | Some h, Some l =>
        let high :=
          debug_output g h l ++
          [gpio_put CLOCK_PIN 1; gpio_put PULSE_PIN 1; sleep_ms (to_uint32 h);
           gpio_put PULSE_PIN 0; gpio_put CLOCK_PIN 0] in
        if mode g =? ASTABLE
        then Some (high ++ [sleep_ms (to_uint32 l)], g)
        else Some (high, set_pulse false_ g)
    | _, _ => None
    end.

(** [n] iterations of the loop. *)
Fixpoint loop (n : nat) (g : globals) : option (list action * globals) :=
  match n with
  | O => Some ([], g)
  | S n' =>
      match loop_body g with
      | None => None
      | Some (out, g') =>
          match loop n' g' with
          | None => None
          | Some (out', g'') => Some (out ++ out', g'')
          end
      end
  end.

(** For the statements below: the actions of one high pulse whose times
    are [h] and [l]. *)
Definition pulse_actions (g : globals) (h l : Z) : list action :=
  debug_output g h l ++
  [gpio_put CLOCK_PIN 1; gpio_put PULSE_PIN 1; sleep_ms h;
   gpio_put PULSE_PIN 0; gpio_put CLOCK_PIN 0].

(** *** An interrupt served during the high sleep *)

(** The iteration up to the end of the high pulse: its actions, and the low
    time computed on the way ([None] after [continue]). *)
Definition loop_high (g : globals) : option (list action * option Z) :=
  if pulse g =? 0 then Some ([], None)
  else
    match high_time g, low_time g with
    | Some h, Some l =>
        Some (debug_output g h l ++
              [gpio_put CLOCK_PIN 1; gpio_put PULSE_PIN 1;
               sleep_ms (to_uint32 h);
               gpio_put PULSE_PIN 0; gpio_put CLOCK_PIN 0],
              Some l)
    | _, _ => None
    end.

(** The rest of the iteration, [if (mode == ASTABLE) sleep_ms(low_time);
    else pulse = false;], with the low time [l] computed before. *)
Definition loop_low (l : Z) (g : globals) : list action * globals :=
  if mode g =? ASTABLE then ([sleep_ms (to_uint32 l)], g)
  else ([], set_pulse false_ g).

(** One iteration during whose high sleep the handler is run for an edge on
    [gpio] at time [now]. The loop reads no global between the start of
    that sleep and its test of [mode], so the handler's writes are placed
    before that test. *)
Definition loop_body_irq (gpio now : Z) (g : globals)
    : option (list action * globals) :=
  match loop_high g with
  | None => None
  | Some (out, None) => Some (out, g)
  | Some (out, Some l) =>
      let (out', g') := loop_low l (handle_button_interrupt gpio now g) in
      Some (out ++ out', g')
  end.

(** What every write of main.c keeps: a frequency of at least 1, the duty
    cycle of 50, a mode that is one of the two, a pulse flag that is one of
    [false] and [true]. *)
Definition globals_ok (g : globals) : Prop :=
  1 <= frequency g /\ duty_cycle g = 50 /\
  (mode g = ASTABLE \/ mode g = MONOSTABLE) /\
  (pulse g = false_ \/ pulse g = true_).

(** Where the loop stands between two of its accesses to the globals: at
    the top of an iteration; after the high pulse, with the low time [l]
    computed and [mode] not yet tested; or after the test of [mode] has
    chosen the [else] branch, before the store [pulse = false]. *)
Inductive pc : Type :=
| AtTop
| AfterHigh (l : Z)
| AtClear.

(** The globals main.c can reach, with the place of the loop. [main] sets
    the frequency up; then, in any order and at any of the three places,
    the handler runs on an edge and core 1 (if it was launched) stores a
    scaled average of 64 samples of the 12-bit ADC; and the loop goes from
    place to place. At the top with [pulse] clear the loop stays at the
    top. *)
Inductive running : pc -> globals -> Prop :=
| run_setup : running AtTop (fst (main_setup initial))
| run_irq (p : pc) (g : globals) (gpio now : Z) :
    running p g -> running p (handle_button_interrupt gpio now g)
| run_adc (p : pc) (g : globals) (reads : list Z) :
    running p g ->
    snd (main_setup initial) = true ->
    List.length reads = 64%nat ->
    Forall (fun r => 0 <= r <= 4095) reads ->
    running p (start_adc_round reads g)
| run_high (g : globals) (out : list action) (l : Z) :
    running AtTop g ->
    loop_high g = Some (out, Some l) ->
    running (AfterHigh l) g
| run_test_astable (g : globals) (l : Z) :
    running (AfterHigh l) g -> mode g = ASTABLE -> running AtTop g
| run_test_else (g : globals) (l : Z) :
    running (AfterHigh l) g -> mode g <> ASTABLE -> running AtClear g
| run_clear (g : globals) :
    running AtClear g -> running AtTop (set_pulse false_ g).

End Build.

End Main.

(* ================================================================= *)
(** ** The C library functions cmd.c calls *)

Module Libc.

(** A [char*] is the list of the bytes from the pointer onwards; the string
    it points to ends at the first NUL. Reading past the end of the list
    reads NUL: a literal's terminator, and for the console buffer the
    zero bytes that follow the typed characters. *)
Definition NUL : ascii := "000"%char.

Definition code (c : ascii) : Z := Z.of_N (N_of_ascii c).

(** The string a pointer points to. *)
Fixpoint cstr (p : list ascii) : list ascii :=
  match p with
  | [] => []
  | c :: r => if Ascii.eqb c NUL then [] else c :: cstr r
  end.

(** A string literal of the source. *)
Definition lit (s : string) : list ascii := list_ascii_of_string s.

(** [strcmp]: the difference of the first two bytes that differ, zero when
    the strings are equal. The callers only test the result against 0. *)
Fixpoint strcmp (s1 s2 : list ascii) : Z :=
  match s1 with
  | [] => 0 - code (hd NUL s2)
  | c1 :: r1 =>
      let c2 := hd NUL s2 in
      if Ascii.eqb c1 c2
      then (if Ascii.eqb c1 NUL then 0 else strcmp r1 (tl s2))
      else code c1 - code c2
  end.

(** [strncmp]: as [strcmp], over at most [n] bytes. *)
Fixpoint strncmp (s1 s2 : list ascii) (n : nat) : Z :=
  match n with
  | O => 0
  | S n' =>
      let c1 := hd NUL s1 in
      let c2 := hd NUL s2 in
      if Ascii.eqb c1 c2
      then (if Ascii.eqb c1 NUL then 0 else strncmp (tl s1) (tl s2) n')
      else code c1 - code c2
  end.

(** [isspace] and [isdigit] in the C locale. *)
Definition isspace (c : ascii) : bool :=
  (code c =? 32) || ((9 <=? code c) && (code c <=? 13)).
Definition isdigit (c : ascii) : bool :=
  (48 <=? code c) && (code c <=? 57).

Fixpoint skip_space (s : list ascii) : list ascii :=
  match s with
  | c :: r => if isspace c then skip_space r else s
  | [] => []
  end.

(** The value of the leading run of decimal digits, after [acc]. *)
Fixpoint digits (s : list ascii) (acc : Z) : Z :=
  match s with
  | c :: r => if isdigit c then digits r (acc * 10 + (code c - 48)) else acc
  | [] => acc
  end.

(** [atoi]: optional white space, an optional sign, decimal digits; 0 when
    there is no digit. The C standard leaves the result undefined when the
    value is not representable as an [int]: [None]. *)
Definition atoi (s : list ascii) : option Z :=
  let s1 := skip_space s in
  let v :=
    match s1 with
    | c :: r =>
        if Ascii.eqb c "-"%char then - digits r 0
        else if Ascii.eqb c "+"%char then digits r 0
        else digits s1 0
    | [] => 0
    end in
  if in_int v then Some v else None.

End Libc.

Import Libc.

(* ================================================================= *)
(** ** clock.h *)

(** cmd.c is written against the clock module's header; clock.c is not
    among the sources. The interface is what cmd.c uses of it: a state
    [S] of the clock module, getters that read it, procedures that change
    it, and the three constants cmd.c compares against. The procedures are
    taken not to write to the console. *)
Class Clock (S : Type) : Type := {
  CLOCK_TIMER_PWM : Z;
  CLOCK_TIMER_RPT : Z;
  CLOCK_MONOSTABLE : Z;
  clock_get_sys_freq_hz : S -> Z;
  clock_get_freq_hz : S -> Z;
  clock_get_pwm_div : S -> Z;
  clock_get_pwm_wrap : S -> Z;
  clock_get_duty_cycle : S -> Z;
  clock_get_timer_type : S -> Z;
  clock_get_mode : S -> Z;
  clock_pulse_start : S -> S;
  clock_pulse_stop : S -> S;
  clock_step : bool -> S -> S;
  clock_step_pulse : S -> S;
  clock_set_freq_hz : Z -> S -> S;
  clock_set_duty_cycle : Z -> S -> S;
  clock_reset : S -> S
}.

(* ================================================================= *)
(** ** cmd.c *)

(** An argument of a [printf] call. *)
Inductive arg : Type :=
| ArgInt (z : Z)
| ArgStr (s : string).

(** A call of [printf]: the format, spelled as the literal is in the source
    (escape sequences such as \n left as written), and its arguments. *)
Inductive output : Type :=
| Printf (fmt : string) (args : list arg).

Section Console.

Context {S : Type} `{Clock S}.

(** The state the console code runs in: the clock module's state, what was
    written to stdout (oldest first), the bytes received and not yet read,
    whether the repeating timer [cmd_timer] is installed, and the two static
    locals of [cmd_timer_callback]. *)
Record world : Type := World {
  clk : S;
  stdout : list output;
  stdin : list ascii;
  cmd_timer : bool;
  cmd_buffer : list ascii;   (* static char cmd_buffer[256] *)
  index : N                  (* static unsigned int index *)
}.

Definition set_clk (v : S) (w : world) : world :=
  {| clk := v; stdout := stdout w; stdin := stdin w; cmd_timer := cmd_timer w;
     cmd_buffer := cmd_buffer w; index := index w |}.
Definition set_stdout (v : list output) (w : world) : world :=
  {| clk := clk w; stdout := v; stdin := stdin w; cmd_timer := cmd_timer w;
     cmd_buffer := cmd_buffer w; index := index w |}.
Definition set_stdin (v : list ascii) (w : world) : world :=
  {| clk := clk w; stdout := stdout w; stdin := v; cmd_timer := cmd_timer w;
     cmd_buffer := cmd_buffer w; index := index w |}.
Definition set_cmd_timer (v : bool) (w : world) : world :=
  {| clk := clk w; stdout := stdout w; stdin := stdin w; cmd_timer := v;
     cmd_buffer := cmd_buffer w; index := index w |}.
Definition set_cmd_buffer (v : list ascii) (w : world) : world :=
  {| clk := clk w; stdout := stdout w; stdin := stdin w; cmd_timer := cmd_timer w;
     cmd_buffer := v; index := index w |}.
Definition set_index (v : N) (w : world) : world :=
  {| clk := clk w; stdout := stdout w; stdin := stdin w; cmd_timer := cmd_timer w;
     cmd_buffer := cmd_buffer w; index := v |}.

(** How a procedure ends: it returns, it hands the board over to the
    bootloader ([reset_usb_boot] does not return), or its behaviour is
    undefined. *)
Inductive result (A : Type) : Type :=
| Done (a : A) (w : world)
| BootSel (w : world)
| Undefined.
Arguments Done {A} a w.
Arguments BootSel {A} w.
Arguments Undefined {A}.

Definition M (A : Type) : Type := world -> result A.

Definition ret {A : Type} (a : A) : M A := fun w => Done a w.

Definition bind {A B : Type} (m : M A) (k : A -> M B) : M B :=
  fun w =>
    match m w with
    | Done a w' => k a w'
    | BootSel w' => BootSel w'
    | Undefined => Undefined
    end.

Notation "'let*' x ':=' m 'in' k" := (bind m (fun x => k))
  (at level 10, x name, m at level 100, k at level 200).
Notation "m ';>' k" := (bind m (fun _ => k))
  (at level 100, k at level 200, right associativity).

(** *** The primitives *)

Definition printf (fmt : string) (args : list arg) : M unit :=
  fun w => Done tt (set_stdout (stdout w ++ [Printf fmt args]) w).

(** [getchar_timeout_us(0)]: the next received byte, or
    [PICO_ERROR_TIMEOUT] ([None]) when there is none. *)
Definition getchar_timeout_us : M (option ascii) :=
  fun w =>
    match stdin w with
    | [] => Done None w
    | c :: r => Done (Some c) (set_stdin r w)
    end.

Definition get_clk : M S := fun w => Done (clk w) w.
Definition clock_call (f : S -> S) : M unit :=
  fun w => Done tt (set_clk (f (clk w)) w).

Definition cancel_repeating_timer : M unit :=
  fun w => Done tt (set_cmd_timer false w).
Definition add_repeating_timer_ms : M unit :=
  fun w => Done tt (set_cmd_timer true w).

Definition reset_usb_boot : M unit := fun w => BootSel w.
Definition undefined {A : Type} : M A := fun _ => Undefined.

(** *** cmd_info, cmd_boot_message, cmd_help *)

Definition cmd_info : M unit :=
  let* s := get_clk in
  let sys_clk := to_uint32 (clock_get_sys_freq_hz s) in
  let out_clk := to_uint32 (clock_get_freq_hz s) in
  let pwm_div := to_uint16 (clock_get_pwm_div s) in
  let pwm_wrap := to_uint16 (clock_get_pwm_wrap s) in
  let duty_cycle := to_uint16 (clock_get_duty_cycle s) in
  let timer_type := to_uint8 (clock_get_timer_type s) in
  let mode := to_uint8 (clock_get_mode s) in
  let timer_type_str :=
    if timer_type =? CLOCK_TIMER_PWM then "PWM"%string else "RPT"%string in
  let mode_str :=
    if mode =? CLOCK_MONOSTABLE then "Monostable"%string else "Astable"%string in
  printf "\nSys Clock:\t\t%luHz\nOut Clock:\t\t%luHz\nMode:\t\t\t%s\nTimer:\t\t\t%s\n"
         [ArgInt sys_clk; ArgInt out_clk; ArgStr mode_str; ArgStr timer_type_str] ;>
  (if timer_type =? 0 then ret tt
   else printf "Divider:\t\t%d\nWrap:\t\t\t%d\n" [ArgInt pwm_div; ArgInt pwm_wrap]) ;>
  printf "Duty Cycle:\t\t%d%%\n" [ArgInt duty_cycle] ;>
  printf "\n" [].

Definition cmd_boot_message : M unit :=
  printf "\033[2J\033[1;1H" [] ;>
  printf "\033[1mPico Clock/Timer Emulator\033[0m\n" [] ;>
  cmd_info ;>
  printf "Type '?' for help\n\n" [].

Definition help_text : string :=
  "\n" +:+
  "?\t\tshows this help\n" +:+
  "start\t\tstarts the clock timer\n" +:+
  "stop\t\tstops the clock timer\n" +:+
  "step\t\tsteps the clock timer\n" +:+
  "freq <hz>\tsets the clock frequency\n" +:+
  "duty <percent>\tsets the clock duty cycle\n" +:+
  "reset\t\tresets the clock timer\n" +:+
  "reboot\t\treboots the pico to BOOTSEL mode\n" +:+
  "clear\t\tclears the screen\n" +:+
  "\n".

Definition cmd_help : M unit := printf help_text [].

(** *** cmd_flush, cmd_stop, cmd_run *)

(** [cmd_flush]: read and drop bytes until none is pending or a newline
    has been read. ([getchar_timeout_us] returns a byte or the timeout
    value, so the loop's test against [EOF] never decides.) *)
Fixpoint flush (pending : list ascii) : list ascii :=
  match pending with
  | [] => []
  | c :: r => if Ascii.eqb c "010"%char then r else flush r
  end.

Definition cmd_flush : M unit :=
  fun w => Done tt (set_stdin (flush (stdin w)) w).

(** [cmd_stop]: cancel the timer (and free [cmd_data]; the heap is not
    modelled, the callback receives [cmd_data] as its argument). *)
Definition cmd_stop : M unit := cancel_repeating_timer.

Definition cmd_run : M unit :=
  printf ">>> " [] ;>
  cmd_flush ;>
  add_repeating_timer_ms.

(** *** cmd_execute *)

Definition step_message : string :=
  "* Monostable mode press `enter` to step and type `exit` and hit enter to go back to Astable mode\n".

Definition cmd_execute (cmd : list ascii) : M unit :=
  cmd_stop ;>
  (if strcmp cmd (lit "?") =? 0 then
     cmd_help
   else if strcmp cmd (lit "start") =? 0 then
     printf "* Clock started\n" [] ;>
     clock_call clock_pulse_start
   else if strcmp cmd (lit "stop") =? 0 then
     printf "* Clock stopped\n" [] ;>
     clock_call clock_pulse_stop
   else if strcmp cmd (lit "step") =? 0 then
     clock_call (clock_step true) ;>
     printf step_message [] ;>
     cmd_info
   else if strncmp cmd (lit "freq") 4 =? 0 then
     let freq := drop 5 cmd in
     match atoi freq with
     | None => undefined
     | Some n =>
         let hz := to_uint32 n in
         if 125000000 <? hz then
           printf "Frequency cannot be greater than 125000000\n" []
         else
           clock_call (clock_set_freq_hz hz) ;>
           cmd_info
     end
   else if strncmp cmd (lit "duty") 4 =? 0 then
     let duty := drop 5 cmd in
     match atoi duty with
     | None => undefined
     | Some n =>
         let duty_cycle := to_uint16 n in
         let* s := get_clk in
         if clock_get_timer_type s =? CLOCK_TIMER_RPT then
           printf "Duty cycle can only be set in PWM mode\n" []
         else if 100 <? duty_cycle then
           printf "Duty cycle cannot be greater than 100\n" []
         else
           clock_call (clock_set_duty_cycle duty_cycle) ;>
           cmd_info
     end
   else if strcmp cmd (lit "reset") =? 0 then
     clock_call clock_reset ;>
     cmd_boot_message
   else if strcmp cmd (lit "reboot") =? 0 then
     printf "* Rebooting to BOOTSEL mode\n" [] ;>
     reset_usb_boot
   else if strcmp cmd (lit "clear") =? 0 then
     cmd_boot_message
   else
     let* s := get_clk in
     if (strcmp cmd (lit "exit") =? 0) && (clock_get_mode s =? CLOCK_MONOSTABLE) then
       clock_call (clock_step false) ;>
       cmd_info
     else if clock_get_mode s =? CLOCK_MONOSTABLE then
       printf "...\n" [] ;>
       clock_call clock_step_pulse
     else
       printf "Unknown command\n" []) ;>
  cmd_run.

(** *** cmd_timer_callback *)

(** [cmd_data_t]: the function the callback dispatches a line to. *)
Record cmd_data_t : Type := {
  cmd_data_cmd_execute : list ascii -> M unit
}.

Definition get_index : M N := fun w => Done (index w) w.
Definition put_index (i : N) : M unit := fun w => Done tt (set_index i w).
Definition get_cmd_buffer : M (list ascii) := fun w => Done (cmd_buffer w) w.
(** [cmd_buffer[i] = c] *)
Definition store_cmd_buffer (i : N) (c : ascii) : M unit :=
  fun w => Done tt (set_cmd_buffer (<[N.to_nat i := c]> (cmd_buffer w)) w).
(** [memset(cmd_buffer, 0, sizeof(char) * 256)] *)
Definition memset_cmd_buffer : M unit :=
  fun w => Done tt (set_cmd_buffer (replicate 256 NUL) w).

(** The callback's two tests on the byte read:
    [ch == 0x08 || ch == 0x7F] and [ch == '\n' || ch == '\r']. *)
Definition is_backspace (ch : ascii) : bool :=
  Ascii.eqb ch "008"%char || Ascii.eqb ch "127"%char.
Definition is_newline (ch : ascii) : bool :=
  Ascii.eqb ch "010"%char || Ascii.eqb ch "013"%char.

(** One run of the timer callback, with [cmd_data] the timer's
    [user_data]. It returns [true]: the timer keeps repeating. *)
Definition cmd_timer_callback (cmd_data : cmd_data_t) : M bool :=
  let* ch := getchar_timeout_us in
  match ch with
  | None => ret true                       (* ch == PICO_ERROR_TIMEOUT *)
  | Some ch =>
      let* i := get_index in
      if is_backspace ch then
        if (i =? 0)%N then
          printf " " [] ;>
          ret true
        else
          (* cmd_buffer[--index] = 0; *)
          put_index (i - 1)%N ;>
          store_cmd_buffer (i - 1)%N NUL ;>
          printf " \b \b" [] ;>
          ret true
      else if is_newline ch then
        let* buf := get_cmd_buffer in
        cmd_data_cmd_execute cmd_data buf ;>
        memset_cmd_buffer ;>
        put_index 0%N ;>
        ret true
      else if (i <? 256 - 1)%N then
        (* cmd_buffer[index++] = ch; *)
        store_cmd_buffer i ch ;>
        put_index (i + 1)%N ;>
        ret true
      else
        ret true
  end.

(** The callback's newline branch after the call of [cmd_execute]: the
    buffer is zeroed and [index] reset. *)
Definition after_dispatch : M bool :=
  memset_cmd_buffer ;>
  put_index 0%N ;>
  ret true.

(** The [cmd_data] that [cmd_run] installs. *)
Definition the_cmd_data : cmd_data_t :=
  {| cmd_data_cmd_execute := cmd_execute |}.

(** One period of the repeating timer: the callback runs if the timer is
    installed. *)
Definition tick (cmd_data : cmd_data_t) : M unit :=
  fun w =>
    if cmd_timer w then (cmd_timer_callback cmd_data ;> ret tt) w
    else Done tt w.

(** [n] periods of the timer. *)
Fixpoint poll (cmd_data : cmd_data_t) (n : nat) : M unit :=
  match n with
  | O => ret tt
  | Datatypes.S n' => tick cmd_data ;> poll cmd_data n'
  end.

(** [cmd_init] *)
Definition cmd_init : M unit :=
  cmd_boot_message ;>
  cmd_run.

(** The state at boot: nothing written, nothing received, no timer, the
    static buffer zeroed. *)
Definition boot (s : S) : world :=
  {| clk := s; stdout := []; stdin := []; cmd_timer := false;
     cmd_buffer := replicate 256 NUL; index := 0%N |}.

(** *** The states the console can be in *)

(** The line buffer is in order: it has its 256 bytes, [index] is at most
    255, and every byte from [index] on is NUL (so the buffer holds a
    string of at most [index] characters). *)
Definition buffer_ok (w : world) : Prop :=
  List.length (cmd_buffer w) = 256%nat /\
  (index w <= 255)%N /\
  forall j : nat,
    (N.to_nat (index w) <= j < 256)%nat -> cmd_buffer w !! j = Some NUL.

(** The states reached from boot: [cmd_init] runs, then bytes arrive, the
    other contexts change the clock's state, and the timer fires while it
    is installed. *)
Inductive reachable (cmd_data : cmd_data_t) : world -> Prop :=
| reach_init (s : S) (w : world) :
    cmd_init (boot s) = Done tt w -> reachable cmd_data w
| reach_receive (w : world) (bytes : list ascii) :
    reachable cmd_data w ->
    reachable cmd_data (set_stdin (stdin w ++ bytes) w)
| reach_clock (w : world) (s : S) :
    reachable cmd_data w -> reachable cmd_data (set_clk s w)
| reach_tick (w w' : world) (b : bool) :
    reachable cmd_data w ->
    cmd_timer w = true ->
    cmd_timer_callback cmd_data w = Done b w' ->
    reachable cmd_data w'.

End Console.

(** The 256-byte buffer that holds the characters [typed], NUL after them. *)
Definition buffer_of (typed : list ascii) : list ascii :=
  typed ++ replicate (256 - List.length typed) NUL.

(** The line editing the callback does, on the characters held: a
    backspace or delete removes the last one (none when there is none),
    any other byte is appended while fewer than 255 are held and dropped
    otherwise. *)
Definition edit (typed : list ascii) (ch : ascii) : list ascii :=
  if is_backspace ch then take (List.length typed - 1) typed
  else if (List.length typed <? 255)%nat then typed ++ [ch]
  else typed.

Arguments world S : clear implicits.
Arguments result S A : clear implicits.
Arguments Done {S A} a w.
Arguments BootSel {S A} w.
Arguments Undefined {S A}.

(* ================================================================= *)
(** ** The clock module, from its description *)

(** Modelled from the spec: clock.c, the module behind clock.h, is not among
    the sources. [GeneratorState] is the shared state of the data model
    (mode, pulse-enable, frequency, duty cycle, output kind), with the
    values the banner reports besides (system clock, PWM divider and wrap)
    and the value of the frequency source that a reset returns to. *)
Inductive Mode : Type := Astable | Monostable.
Inductive OutputKind : Type := RepeatingTimer | PWM.

Record GeneratorState : Type := {
  gs_mode : Mode;
  pulseEnabled : bool;
  frequencyHz : Z;
  dutyCyclePercent : Z;
  outputKind : OutputKind;
  sysClockHz : Z;
  pwmDivider : Z;
  pwmWrap : Z;
  sourceHz : Z
}.

Definition with_pulse (b : bool) (s : GeneratorState) : GeneratorState :=
  {| gs_mode := gs_mode s; pulseEnabled := b; frequencyHz := frequencyHz s;
     dutyCyclePercent := dutyCyclePercent s; outputKind := outputKind s;
     sysClockHz := sysClockHz s; pwmDivider := pwmDivider s;
     pwmWrap := pwmWrap s; sourceHz := sourceHz s |}.

(** Modelled from the spec: [setFrequency(hz)] has no effect if
    [hz > 125_000_000]; no setter accepts 0 or a negative value
    ([frequencyHz] is an integer of [1, 125_000_000]); otherwise it
    commits. *)
Definition setFrequency (hz : Z) (s : GeneratorState) : GeneratorState :=
  if (125000000 <? hz) || (hz <? 1) then s
  else
    {| gs_mode := gs_mode s; pulseEnabled := pulseEnabled s; frequencyHz := hz;
       dutyCyclePercent := dutyCyclePercent s; outputKind := outputKind s;
       sysClockHz := sysClockHz s; pwmDivider := pwmDivider s;
       pwmWrap := pwmWrap s; sourceHz := sourceHz s |}.

(** Modelled from the spec: [setDutyCycle(pct)] fails if the output kind is
    not PWM, or if [pct > 100]; otherwise it commits. *)
Definition setDutyCycle (pct : Z) (s : GeneratorState) : GeneratorState :=
  match outputKind s with
  | RepeatingTimer => s
  | PWM =>
      if 100 <? pct then s
      else
        {| gs_mode := gs_mode s; pulseEnabled := pulseEnabled s;
           frequencyHz := frequencyHz s; dutyCyclePercent := pct;
           outputKind := outputKind s; sysClockHz := sysClockHz s;
           pwmDivider := pwmDivider s; pwmWrap := pwmWrap s;
           sourceHz := sourceHz s |}
  end.

(** Modelled from the spec: [reset()] restores the defaults (frequency from
    the source, duty 50%, mode Astable, pulse true). *)
Definition reset (s : GeneratorState) : GeneratorState :=
  {| gs_mode := Astable; pulseEnabled := true; frequencyHz := sourceHz s;
     dutyCyclePercent := 50; outputKind := outputKind s;
     sysClockHz := sysClockHz s; pwmDivider := pwmDivider s;
     pwmWrap := pwmWrap s; sourceHz := sourceHz s |}.

(** Modelled from the spec: clock.c's implementation of clock.h. A step
    request sets pulse-enable; leaving step mode returns to armed-low. *)
#[export] Instance spec_clock : Clock GeneratorState := {
  CLOCK_TIMER_PWM := 1;
  CLOCK_TIMER_RPT := 0;
  CLOCK_MONOSTABLE := 1;
  clock_get_sys_freq_hz := sysClockHz;
  clock_get_freq_hz := frequencyHz;
  clock_get_pwm_div := pwmDivider;
  clock_get_pwm_wrap := pwmWrap;
  clock_get_duty_cycle := dutyCyclePercent;
  clock_get_timer_type s :=
    match outputKind s with RepeatingTimer => 0 | PWM => 1 end;
  clock_get_mode s := match gs_mode s with Astable => 0 | Monostable => 1 end;
  clock_pulse_start := with_pulse true;
  clock_pulse_stop := with_pulse false;
  clock_step b := with_pulse b;
  clock_step_pulse := with_pulse true;
  clock_set_freq_hz := setFrequency;
  clock_set_duty_cycle := setDutyCycle;
  clock_reset := reset
}.

(** The state at start-up, with the output kind of the build and the
    frequency source at [hz]. *)
Definition startup (kind : OutputKind) (hz : Z) : GeneratorState :=
  {| gs_mode := Astable; pulseEnabled := true; frequencyHz := hz;
     dutyCyclePercent := 50; outputKind := kind; sysClockHz := 125000000;
     pwmDivider := 0; pwmWrap := 0; sourceHz := hz |}.

(** For the clock module as described: the frequency and the frequency
    source (the value a reset returns to) are at 1 or above. *)
Definition frequency_ok (s : GeneratorState) : Prop :=
  1 <= frequencyHz s /\ 1 <= sourceHz s.

(** A console line as it stands in the zeroed 256-byte buffer. *)
Definition line (s : string) : list ascii :=
  lit s ++ replicate (256 - List.length (lit s)) NUL.

(* ================================================================= *)
(** * Properties of main.c *)

Section MainProperties.

Import Main.

Variable CLOCK_DEBUG : Z.

(** ** Arithmetic of the pulse times *)

Lemma period_truncates (f : Z) :
  1 <= f -> Z.quot 1000 f = 1000 / f /\ 0 <= 1000 / f <= 1000.
Proof.
  intros Hf. split.
  - apply Z.quot_div_nonneg; lia.
  - split.
    + apply Z.div_pos; lia.
    + apply Z.div_le_upper_bound; nia.
Qed.

Lemma high_truncates (p d : Z) :
  0 <= p <= 1000 -> 0 <= d <= 100 ->
  Z.quot (p * d) 100 = p * d / 100 /\ 0 <= p * d / 100 <= p.
Proof.
  intros Hp Hd. split.
  - apply Z.quot_div_nonneg; nia.
  - split.
    + apply Z.div_pos; nia.
    + apply Z.div_le_upper_bound; nia.
Qed.

Lemma in_int_small (z : Z) : -100000 <= z <= 100000 -> in_int z = true.
Proof.
  intros Hz. unfold in_int, INT_MIN, INT_MAX.
  apply andb_true_intro; split; apply Z.leb_le; lia.
Qed.

Lemma to_uint32_small (z : Z) : 0 <= z <= 1000 -> to_uint32 z = z.
Proof. intros Hz. unfold to_uint32. apply Z.mod_small. lia. Qed.

(** The three locals of an iteration, for a frequency of at least 1 Hz and
    a duty cycle of 0 to 100 percent. *)
Lemma times_defined (g : globals) :
  1 <= frequency g -> 0 <= duty_cycle g <= 100 ->
  sleep_in_ms g = Some (1000 / frequency g) /\
  high_time g = Some (1000 / frequency g * duty_cycle g / 100) /\
  low_time g =
    Some (1000 / frequency g - 1000 / frequency g * duty_cycle g / 100).
Proof.
  intros Hf Hd.
  destruct (period_truncates (frequency g) Hf) as [Hq Hp].
  destruct (high_truncates _ _ Hp Hd) as [Hq' Hh].
  assert (Hs : sleep_in_ms g = Some (1000 / frequency g)).
  { unfold sleep_in_ms. destruct (Z.eqb_spec (frequency g) 0); [lia|].
    now rewrite Hq. }
  assert (Hh' : high_time g = Some (1000 / frequency g * duty_cycle g / 100)).
  { unfold high_time. rewrite Hs, in_int_small by nia. now rewrite Hq'. }
  repeat split; trivial.
  unfold low_time. rewrite Hs, Hh', in_int_small by lia. reflexivity.
Qed.

(** C7: each iteration computes the period as 1000 / frequency by truncating
    division, the high time as period * duty_cycle / 100 and the low time as
    period - high time; for a frequency of at least 1 and a duty cycle in
    [0,100] the high and low times add up to the period, and the period is
    0 whenever the frequency is above 1000. *)
Theorem pulse_times (g : globals) :
  1 <= frequency g -> 0 <= duty_cycle g <= 100 ->
  exists periodMs highMs lowMs,
    sleep_in_ms g = Some periodMs /\
    high_time g = Some highMs /\
    low_time g = Some lowMs /\
    periodMs = Z.quot 1000 (frequency g) /\
    highMs = Z.quot (periodMs * duty_cycle g) 100 /\
    lowMs = periodMs - highMs /\
    highMs + lowMs = periodMs /\
    (1000 < frequency g -> periodMs = 0).
Proof.
  intros Hf Hd.
  destruct (times_defined g Hf Hd) as (Hs & Hh & Hl).
  destruct (period_truncates (frequency g) Hf) as [Hq Hp].
  destruct (high_truncates _ _ Hp Hd) as [Hq' _].
  exists (1000 / frequency g), (1000 / frequency g * duty_cycle g / 100),
    (1000 / frequency g - 1000 / frequency g * duty_cycle g / 100).
  split; [exact Hs|]. split; [exact Hh|]. split; [exact Hl|].
  split; [now rewrite Hq|]. split; [now rewrite Hq'|].
  split; [reflexivity|]. split; [lia|].
  intros Hbig. apply Z.div_small. lia.
Qed.

Lemma pulse_times_witness :
  exists periodMs highMs lowMs,
    sleep_in_ms (set_frequency 3 initial) = Some periodMs /\
    high_time (set_frequency 3 initial) = Some highMs /\
    low_time (set_frequency 3 initial) = Some lowMs /\
    periodMs = Z.quot 1000 (frequency (set_frequency 3 initial)) /\
    highMs = Z.quot (periodMs * duty_cycle (set_frequency 3 initial)) 100 /\
    lowMs = periodMs - highMs /\
    highMs + lowMs = periodMs /\
    (1000 < frequency (set_frequency 3 initial) -> periodMs = 0).
Proof. apply (pulse_times (set_frequency 3 initial)); simpl; lia. Defined.

(** ** The pulse loop *)

Local Abbreviation period_of g := (1000 / frequency g) (only parsing).
Local Abbreviation high_of g := (period_of g * duty_cycle g / 100) (only parsing).
Local Abbreviation low_of g := (period_of g - high_of g) (only parsing).
Local Abbreviation high_pulse g :=
  (pulse_actions CLOCK_DEBUG g (high_of g) (low_of g)) (only parsing).

Lemma loop_body_idle (g : globals) :
  pulse g = 0 -> loop_body CLOCK_DEBUG g = Some ([], g).
Proof. intros Hp. unfold loop_body. now rewrite Hp. Qed.

Lemma loop_idle (n : nat) (g : globals) :
  pulse g = 0 -> loop CLOCK_DEBUG n g = Some ([], g).
Proof.
  intros Hp. induction n as [|n IH]; simpl; [reflexivity|].
  now rewrite (loop_body_idle g Hp), IH.
Qed.

Lemma loop_body_monostable (g : globals) :
  pulse g <> 0 -> mode g <> ASTABLE ->
  1 <= frequency g -> 0 <= duty_cycle g <= 100 ->
  loop_body CLOCK_DEBUG g = Some (high_pulse g, set_pulse false_ g).
Proof.
  intros Hp Hm Hf Hd.
  destruct (times_defined g Hf Hd) as (_ & Hh & Hl).
  destruct (period_truncates (frequency g) Hf) as [_ Hq].
  destruct (high_truncates _ _ Hq Hd) as [_ Hb].
  unfold loop_body. rewrite Hh, Hl.
  destruct (Z.eqb_spec (pulse g) 0); [contradiction|].
  destruct (Z.eqb_spec (mode g) ASTABLE); [contradiction|].
  unfold pulse_actions. now rewrite to_uint32_small by lia.
Qed.

Lemma loop_body_astable (g : globals) :
  pulse g <> 0 -> mode g = ASTABLE ->
  1 <= frequency g -> 0 <= duty_cycle g <= 100 ->
  loop_body CLOCK_DEBUG g = Some (high_pulse g ++ [sleep_ms (low_of g)], g).
Proof.
  intros Hp Hm Hf Hd.
  destruct (times_defined g Hf Hd) as (_ & Hh & Hl).
  destruct (period_truncates (frequency g) Hf) as [_ Hq].
  destruct (high_truncates _ _ Hq Hd) as [_ Hb].
  unfold loop_body. rewrite Hh, Hl, Hm.
  destruct (Z.eqb_spec (pulse g) 0); [contradiction|].
  simpl. unfold pulse_actions.
  now rewrite !to_uint32_small by lia.
Qed.

Lemma loop_astable (n : nat) (g : globals) :
  pulse g <> 0 -> mode g = ASTABLE ->
  1 <= frequency g -> 0 <= duty_cycle g <= 100 ->
  loop CLOCK_DEBUG n g =
    Some (concat (replicate n (high_pulse g ++ [sleep_ms (low_of g)])), g).
Proof.
  intros Hp Hm Hf Hd. induction n as [|n IH]; simpl; [reflexivity|].
  now rewrite (loop_body_astable g Hp Hm Hf Hd), IH.
Qed.

(** C1: in Monostable mode with pulse set, an iteration of the loop emits
    one high pulse of the high time and clears [pulse] without the low-time
    sleep, and the iterations after it emit nothing (until an interrupt sets
    [pulse] again); in Astable mode the iteration holds low for the low time
    after the pulse, leaves the globals as they are, and so repeats. *)
Theorem loop_monostable_single_pulse (g : globals) :
  pulse g <> 0 ->
  1 <= frequency g -> 0 <= duty_cycle g <= 100 ->
  (mode g = MONOSTABLE ->
     loop_body CLOCK_DEBUG g = Some (high_pulse g, set_pulse false_ g) /\
     forall n : nat,
       loop CLOCK_DEBUG (Datatypes.S n) g =
         Some (high_pulse g, set_pulse false_ g)) /\
  (mode g = ASTABLE ->
     loop_body CLOCK_DEBUG g =
       Some (high_pulse g ++ [sleep_ms (low_of g)], g) /\
     forall n : nat,
       loop CLOCK_DEBUG n g =
         Some (concat (replicate n (high_pulse g ++ [sleep_ms (low_of g)])), g)).
Proof.
  intros Hp Hf Hd. split; intros Hm.
  - assert (Hb : loop_body CLOCK_DEBUG g = Some (high_pulse g, set_pulse false_ g)).
    { apply loop_body_monostable; trivial. rewrite Hm. discriminate. }
    split; [exact Hb|]. intros n. simpl. rewrite Hb.
    rewrite loop_idle by reflexivity. now rewrite app_nil_r.
  - split.
    + now apply loop_body_astable.
    + intros n. now apply loop_astable.
Qed.

(** ** The button interrupt *)

Lemma handle_dropped (gpio now : Z) (g : globals) :
  debounced now g = true -> handle_button_interrupt gpio now g = g.
Proof. intros Hd. unfold handle_button_interrupt. now rewrite Hd. Qed.

Lemma handle_accepted_stamp (gpio now : Z) (g : globals) :
  debounced now g = false ->
  last_interrupt_ms (handle_button_interrupt gpio now g) = now.
Proof. intros Hd. unfold handle_button_interrupt. now rewrite Hd. Qed.

Lemma debounced_after (t d : Z) (g : globals) :
  last_interrupt_ms g = t -> 0 <= d < DEBOUNCE_DELAY ->
  debounced (to_uint32 (t + d)) g = true.
Proof.
  intros Ht Hd. unfold debounced, to_uint32, DEBOUNCE_DELAY in *. rewrite Ht.
  rewrite Zminus_mod_idemp_l.
  replace (t + d - t) with d by lia.
  rewrite Z.mod_small by lia. apply Z.ltb_lt. lia.
Qed.

(** C5, as the code has it: there is one debounce timestamp, shared by the
    two buttons. After an edge accepted at [t1] on either pin, an edge on
    either pin (the same or the other one) that arrives less than 200 ms
    later is dropped and leaves every global as it was; so two edges less
    than 200 ms apart produce at most one transition. *)
Theorem debounce_shared (g : globals) (gpio1 gpio2 t1 d : Z) :
  debounced t1 g = false ->
  0 <= d < DEBOUNCE_DELAY ->
  handle_button_interrupt gpio2 (to_uint32 (t1 + d))
    (handle_button_interrupt gpio1 t1 g)
  = handle_button_interrupt gpio1 t1 g.
Proof.
  intros Hacc Hd. apply handle_dropped.
  apply debounced_after; [|exact Hd].
  now apply handle_accepted_stamp.
Qed.

Lemma debounce_shared_witness :
  handle_button_interrupt STEP_PIN (to_uint32 (1000 + 100))
    (handle_button_interrupt MODE_PIN 1000 initial)
  = handle_button_interrupt MODE_PIN 1000 initial.
Proof.
  apply (debounce_shared initial MODE_PIN STEP_PIN 1000 100).
  - reflexivity.
  - unfold DEBOUNCE_DELAY. lia.
Defined.

(** C5 as stated fails: the claim has an accepted edge on one button leave
    an edge on the other button, arriving within the window, accepted. *)
Lemma debounce_per_button_fails :
  ~ (forall (g : globals) (gpio1 gpio2 t1 t2 : Z),
       gpio1 <> gpio2 ->
       debounced t1 g = false ->
       t1 <= t2 < t1 + DEBOUNCE_DELAY ->
       debounced t2 (handle_button_interrupt gpio1 t1 g) = false).
Proof.
  intros Hclaim.
  specialize (Hclaim initial MODE_PIN STEP_PIN 1000 1100).
  assert (Hd : debounced 1100 (handle_button_interrupt MODE_PIN 1000 initial) = true)
    by reflexivity.
  rewrite Hclaim in Hd.
  - discriminate.
  - discriminate.
  - reflexivity.
  - unfold DEBOUNCE_DELAY. lia.
Qed.

(** C6: from Astable with pulse set, two accepted edges of the MODE button
    lead back to Astable with pulse set: the first enters Monostable and
    clears pulse, the second re-enters Astable and sets pulse. Apart from
    the debounce timestamp, the globals are back where they were. *)
Theorem mode_toggle_twice (g : globals) (t1 t2 : Z) :
  mode g = ASTABLE -> pulse g = true_ ->
  debounced t1 g = false ->
  debounced t2 (handle_button_interrupt MODE_PIN t1 g) = false ->
  let g1 := handle_button_interrupt MODE_PIN t1 g in
  let g2 := handle_button_interrupt MODE_PIN t2 g1 in
  mode g1 = MONOSTABLE /\ pulse g1 = false_ /\
  mode g2 = ASTABLE /\ pulse g2 = true_ /\
  g2 = set_last_interrupt_ms t2 g.
Proof.
  intros Hm Hp Hd1 Hd2 g1 g2.
  assert (E1 : g1 = set_last_interrupt_ms t1
                      (set_pulse false_ (set_mode MONOSTABLE g))).
  { subst g1. unfold handle_button_interrupt. now rewrite Hd1, Hm. }
  assert (E2 : g2 = set_last_interrupt_ms t2 g).
  { subst g2. fold g1 in Hd2. unfold handle_button_interrupt.
    rewrite Hd2, E1. destruct g; simpl in *; subst. reflexivity. }
  rewrite E1, E2. simpl. auto.
Qed.

Lemma mode_toggle_twice_witness :
  handle_button_interrupt MODE_PIN 1500
    (handle_button_interrupt MODE_PIN 1000 initial)
  = set_last_interrupt_ms 1500 initial.
Proof.
  apply (mode_toggle_twice initial 1000 1500); reflexivity.
Defined.

(** C10: a STEP edge that passes the debounce check while the mode is
    Astable changes neither [mode] nor [pulse] (only the timestamp); and a
    STEP edge changes [pulse] only if the mode it observes is Monostable. *)
Theorem step_edge_astable (g : globals) (now : Z) :
  (mode g = ASTABLE -> debounced now g = false ->
     handle_button_interrupt STEP_PIN now g = set_last_interrupt_ms now g /\
     mode (handle_button_interrupt STEP_PIN now g) = mode g /\
     pulse (handle_button_interrupt STEP_PIN now g) = pulse g) /\
  (pulse (handle_button_interrupt STEP_PIN now g) <> pulse g ->
     mode g = MONOSTABLE) /\
  mode (handle_button_interrupt STEP_PIN now g) = mode g.
Proof.
  unfold handle_button_interrupt.
  destruct (debounced now g) eqn:Hd; simpl.
  - split; [intros _ Hf; discriminate Hf|].
    split; [intros Hne; now contradiction Hne | reflexivity].
  - destruct (Z.eqb_spec (mode g) MONOSTABLE) as [Hm|Hm]; simpl.
    + split; [intros Ha _; rewrite Ha in Hm; discriminate Hm|].
      split; [intros _; exact Hm | reflexivity].
    + split; [intros _ _; auto|].
      split; [intros Hne; now contradiction Hne | reflexivity].
Qed.

Lemma step_edge_astable_witness :
  handle_button_interrupt STEP_PIN 1000 initial
  = set_last_interrupt_ms 1000 initial.
Proof.
  apply (step_edge_astable initial 1000); reflexivity.
Defined.

End MainProperties.

Lemma loop_monostable_single_pulse_witness :
  Main.loop_body 0 (Main.set_mode Main.MONOSTABLE Main.initial)
  = Some ([Main.gpio_put 28 1; Main.gpio_put 16 1; Main.sleep_ms 500;
           Main.gpio_put 16 0; Main.gpio_put 28 0],
          Main.set_pulse 0 (Main.set_mode Main.MONOSTABLE Main.initial)).
Proof.
  apply (loop_monostable_single_pulse 0
           (Main.set_mode Main.MONOSTABLE Main.initial)); simpl;
    first [discriminate | lia | reflexivity].
Defined.

(* ================================================================= *)
(** * Properties of the C strings *)

Lemma code_inj (c1 c2 : ascii) : code c1 = code c2 -> c1 = c2.
Proof.
  unfold code. intros Hc. apply N2Z.inj in Hc.
  rewrite <- (ascii_N_embedding c1), <- (ascii_N_embedding c2).
  now rewrite Hc.
Qed.

Lemma code_diff (c1 c2 : ascii) : c1 <> c2 -> code c1 - code c2 <> 0.
Proof. intros Hne Hz. apply Hne, code_inj. lia. Qed.

Lemma cstr_head (s : list ascii) : cstr s = [] <-> hd NUL s = NUL.
Proof.
  destruct s as [|c r]; simpl; [tauto|].
  destruct (Ascii.eqb_spec c NUL); split; trivial; try discriminate.
  intros Hc. contradiction.
Qed.

(** [strcmp] is zero exactly when the two strings are equal. *)
Lemma strcmp_zero (s1 s2 : list ascii) :
  strcmp s1 s2 = 0 <-> cstr s1 = cstr s2.
Proof.
  revert s2. induction s1 as [|c1 r1 IH]; intros s2.
  - cbn [strcmp cstr]. split.
    + intros Hz. symmetry. apply cstr_head. apply code_inj.
      change (code NUL) with 0. lia.
    + intros He. symmetry in He. apply cstr_head in He. rewrite He.
      reflexivity.
  - cbn [strcmp cstr].
    destruct (Ascii.eqb_spec c1 (hd NUL s2)) as [Hh|Hh].
    + destruct (Ascii.eqb_spec c1 NUL) as [Hn|Hn].
      * split; trivial. intros _. symmetry. apply cstr_head. congruence.
      * destruct s2 as [|c2 r2]; simpl in Hh; [contradiction|]. subst c2.
        cbn [tl cstr]. destruct (Ascii.eqb_spec c1 NUL); [contradiction|].
        rewrite IH. split; [congruence|]. intros He. now inversion He.
    + split; [intros Hz; now apply code_diff in Hz|].
      intros He. exfalso. apply Hh.
      destruct (Ascii.eqb_spec c1 NUL) as [Hn|Hn].
      * symmetry in He. apply cstr_head in He. congruence.
      * destruct s2 as [|c2 r2]; [discriminate He|].
        cbn [cstr] in He. destruct (Ascii.eqb_spec c2 NUL); [discriminate He|].
        inversion He. reflexivity.
Qed.

Lemma strcmp_differs (s1 s2 : list ascii) :
  cstr s1 <> cstr s2 -> (strcmp s1 s2 =? 0) = false.
Proof. intros Hne. apply Z.eqb_neq. now rewrite strcmp_zero. Qed.

Lemma strcmp_same (s1 s2 : list ascii) :
  cstr s1 = cstr s2 -> (strcmp s1 s2 =? 0) = true.
Proof. intros He. apply Z.eqb_eq. now rewrite strcmp_zero. Qed.

(** [strncmp] against a literal of [n] bytes is zero exactly when the first
    [n] bytes are the literal's. *)
Lemma strncmp_zero (s l : list ascii) :
  Forall (fun c => c <> NUL) l ->
  strncmp s l (List.length l) = 0 <-> take (List.length l) s = l.
Proof.
  intros Hl. revert s. induction Hl as [|c l Hc Hl IH]; intros s.
  - simpl. rewrite take_0. tauto.
  - cbn [List.length strncmp hd tl].
    destruct (Ascii.eqb_spec (hd NUL s) c) as [Hh|Hh].
    + destruct s as [|c1 r]; simpl in Hh; [congruence|]. subst c1.
      cbn [hd tl]. destruct (Ascii.eqb_spec c NUL); [contradiction|].
      rewrite IH. cbn [take]. split; [congruence|].
      intros He. injection He as He. exact He.
    + split; [intros Hz; now apply code_diff in Hz|].
      intros He. exfalso. apply Hh.
      destruct s as [|c1 r]; [discriminate He|].
      cbn [take hd] in *. injection He as He _. exact He.
Qed.

Lemma strncmp_differs (s l : list ascii) :
  Forall (fun c => c <> NUL) l ->
  take (List.length l) s <> l ->
  (strncmp s l (List.length l) =? 0) = false.
Proof. intros Hl Hne. apply Z.eqb_neq. now rewrite strncmp_zero. Qed.

Lemma strncmp_same (s l : list ascii) :
  Forall (fun c => c <> NUL) l ->
  take (List.length l) s = l ->
  (strncmp s l (List.length l) =? 0) = true.
Proof. intros Hl He. apply Z.eqb_eq. now rewrite strncmp_zero. Qed.

Lemma strncmp4_differs (s l : list ascii) :
  List.length l = 4%nat ->
  Forall (fun c => c <> NUL) l ->
  take 4 s <> l ->
  (strncmp s l 4 =? 0) = false.
Proof. intros <-. apply strncmp_differs. Qed.

Lemma strncmp4_same (s l : list ascii) :
  List.length l = 4%nat ->
  Forall (fun c => c <> NUL) l ->
  take 4 s = l ->
  (strncmp s l 4 =? 0) = true.
Proof. intros <-. apply strncmp_same. Qed.


(* ================================================================= *)
(** * Properties of cmd.c *)

Section ConsoleProperties.

Context {S : Type} `{Clock S}.

(** Unfolds the monad and the primitives of the console. *)
Ltac run :=
  unfold cmd_run, cmd_stop, cmd_flush, cmd_help, cmd_info, cmd_boot_message,
    printf, clock_call, get_clk, cancel_repeating_timer, add_repeating_timer_ms,
    reset_usb_boot, undefined, getchar_timeout_us, get_index, put_index,
    get_cmd_buffer, store_cmd_buffer, memset_cmd_buffer, bind, ret;
  cbn [clk stdout stdin cmd_timer cmd_buffer index
       set_clk set_stdout set_stdin set_cmd_timer set_cmd_buffer set_index].

(** The tests of [cmd_execute] that a line fails. *)
Ltac no_match :=
  repeat match goal with
    | Hne : cstr ?cmd <> lit ?t |- context [strcmp ?cmd (lit ?t) =? 0] =>
        rewrite (strcmp_differs cmd (lit t) Hne)
    | Hne : take 4 ?cmd <> lit ?t |- context [strncmp ?cmd (lit ?t) 4 =? 0] =>
        rewrite (strncmp4_differs cmd (lit t)) by
          (trivial; repeat constructor; discriminate)
    end.

(** C9: a line that matches none of the command tokens is, when the clock's
    mode is Monostable, answered with an implicit step ([clock_step_pulse]);
    otherwise "Unknown command" is printed and the clock's state is left as
    it was. (In a mode other than Monostable that also holds of the line
    "exit".) Either way the prompt is printed and the console re-armed. *)
Theorem fallback_step_or_unknown (cmd : list ascii) (w : world S) :
  Forall (fun t => cstr cmd <> lit t)
    ["?"; "start"; "stop"; "step"; "reset"; "reboot"; "clear"]%string ->
  take 4 cmd <> lit "freq" ->
  take 4 cmd <> lit "duty" ->
  (clock_get_mode (clk w) = CLOCK_MONOSTABLE ->
   cstr cmd <> lit "exit" ->
   cmd_execute cmd w =
     Done tt {| clk := clock_step_pulse (clk w);
                stdout := stdout w ++ [Printf "...\n" []; Printf ">>> " []];
                stdin := flush (stdin w);
                cmd_timer := true;
                cmd_buffer := cmd_buffer w;
                index := index w |}) /\
  (clock_get_mode (clk w) <> CLOCK_MONOSTABLE ->
   cmd_execute cmd w =
     Done tt {| clk := clk w;
                stdout := stdout w ++
                          [Printf "Unknown command\n" []; Printf ">>> " []];
                stdin := flush (stdin w);
                cmd_timer := true;
                cmd_buffer := cmd_buffer w;
                index := index w |}).
Proof.
  intros Htok Hfreq Hduty.
  repeat match goal with
    | Hf : Forall _ (_ :: _) |- _ => apply Forall_cons in Hf; destruct Hf as [? Hf]
    end.
  split.
  - intros Hmode Hexit. unfold cmd_execute. no_match. run.
    apply Z.eqb_eq in Hmode. rewrite Hmode. cbn.
    now rewrite <- app_assoc.
  - intros Hmode. unfold cmd_execute. no_match. run.
    apply Z.eqb_neq in Hmode. rewrite Hmode, andb_false_r. cbn.
    now rewrite <- app_assoc.
Qed.

(** ** The freq and duty commands *)

Lemma atoi_in_int (s : list ascii) (n : Z) :
  atoi s = Some n -> INT_MIN <= n <= INT_MAX.
Proof.
  unfold atoi. intros Ha.
  destruct (in_int _) eqn:Hi; [|discriminate Ha].
  injection Ha as <-. unfold in_int in Hi.
  apply andb_prop in Hi. destruct Hi as [Hlo Hhi].
  apply Z.leb_le in Hlo, Hhi. lia.
Qed.

(** A line whose first four bytes are a four-letter token fails the four
    [strcmp] tests that precede the token's [strncmp] test. *)
Ltac skip_tests :=
  repeat match goal with
    | |- context [strcmp ?cmd (lit ?t) =? 0] =>
        rewrite (strcmp_differs cmd (lit t)) by (cbn; discriminate)
    end.

(** What [cmd_execute] does with a line that starts with "freq": the
    fifth byte is skipped whatever it is, and the rest goes to [atoi]. *)
Lemma cmd_execute_freq (arg : list ascii) (sep : ascii) (n : Z) (w : world S) :
  atoi arg = Some n ->
  cmd_execute (lit "freq" ++ sep :: arg) w =
    if 125000000 <? to_uint32 n then
      Done tt {| clk := clk w;
                 stdout := stdout w ++
                   [Printf "Frequency cannot be greater than 125000000\n" [];
                    Printf ">>> " []];
                 stdin := flush (stdin w);
                 cmd_timer := true;
                 cmd_buffer := cmd_buffer w;
                 index := index w |}
    else
      bind cmd_info (fun _ => cmd_run)
        (set_clk (clock_set_freq_hz (to_uint32 n) (clk w))
           (set_cmd_timer false w)).
Proof.
  intros Ha. unfold cmd_execute.
  change (lit "freq" ++ sep :: arg)
    with ("f" :: "r" :: "e" :: "q" :: sep :: arg)%char.
  skip_tests.
  rewrite (strncmp4_same _ (lit "freq")) by
    (trivial; repeat constructor; discriminate).
  cbn [drop]. rewrite drop_0, Ha.
  destruct (125000000 <? to_uint32 n); run.
  - now rewrite <- app_assoc.
  - reflexivity.
Qed.

(** What [cmd_execute] does with a line that starts with "duty". *)
Lemma cmd_execute_duty (arg : list ascii) (sep : ascii) (n : Z) (w : world S) :
  atoi arg = Some n ->
  cmd_execute (lit "duty" ++ sep :: arg) w =
    if clock_get_timer_type (clk w) =? CLOCK_TIMER_RPT then
      Done tt {| clk := clk w;
                 stdout := stdout w ++
                   [Printf "Duty cycle can only be set in PWM mode\n" [];
                    Printf ">>> " []];
                 stdin := flush (stdin w);
                 cmd_timer := true;
                 cmd_buffer := cmd_buffer w;
                 index := index w |}
    else if 100 <? to_uint16 n then
      Done tt {| clk := clk w;
                 stdout := stdout w ++
                   [Printf "Duty cycle cannot be greater than 100\n" [];
                    Printf ">>> " []];
                 stdin := flush (stdin w);
                 cmd_timer := true;
                 cmd_buffer := cmd_buffer w;
                 index := index w |}
    else
      bind cmd_info (fun _ => cmd_run)
        (set_clk (clock_set_duty_cycle (to_uint16 n) (clk w))
           (set_cmd_timer false w)).
Proof.
  intros Ha. unfold cmd_execute.
  change (lit "duty" ++ sep :: arg)
    with ("d" :: "u" :: "t" :: "y" :: sep :: arg)%char.
  skip_tests.
  rewrite (strncmp4_differs _ (lit "freq")) by
    (trivial; repeat constructor; discriminate).
  rewrite (strncmp4_same _ (lit "duty")) by
    (trivial; repeat constructor; discriminate).
  cbn [drop]. rewrite drop_0, Ha. run.
  destruct (clock_get_timer_type (clk w) =? CLOCK_TIMER_RPT).
  - cbn. now rewrite <- app_assoc.
  - destruct (100 <? to_uint16 n).
    + cbn. now rewrite <- app_assoc.
    + reflexivity.
Qed.

(** [cmd_info] and [cmd_run] return, and leave the clock's state alone. *)
Lemma info_then_run (w : world S) :
  exists w' : world S,
    bind cmd_info (fun _ => cmd_run) w = Done tt w' /\
    clk w' = clk w /\ cmd_timer w' = true /\
    cmd_buffer w' = cmd_buffer w /\ index w' = index w.
Proof.
  run. destruct (to_uint8 (clock_get_timer_type (clk w)) =? 0);
    eexists; (split; [reflexivity|]); cbn; auto.
Qed.

End ConsoleProperties.

(* ================================================================= *)
(** * The console commands on the clock module *)

Lemma to_uint32_int (n : Z) : 0 <= n <= INT_MAX -> to_uint32 n = n.
Proof.
  unfold INT_MAX, to_uint32. intros Hn. apply Z.mod_small. lia.
Qed.

Lemma setFrequency_read (hz : Z) (s : GeneratorState) :
  1 <= hz <= 125000000 -> frequencyHz (setFrequency hz s) = hz.
Proof.
  intros Hhz. unfold setFrequency.
  destruct (Z.ltb_spec 125000000 hz); [lia|].
  destruct (Z.ltb_spec hz 1); [lia | reflexivity].
Qed.

(** C2: for the integer [n] that [atoi] reads from a line "freq n": if
    [n > 125000000] the command prints "Frequency cannot be greater than
    125000000" and leaves the clock's state (the frequency and everything
    else) as it was; if [0 < n <= 125000000] the frequency is committed and
    a read returns [n]. *)
Theorem freq_command (arg : list ascii) (sep : ascii) (n : Z)
    (w : world GeneratorState) :
  atoi arg = Some n ->
  (125000000 < n ->
   cmd_execute (lit "freq" ++ sep :: arg) w =
     Done tt {| clk := clk w;
                stdout := stdout w ++
                  [Printf "Frequency cannot be greater than 125000000\n" [];
                   Printf ">>> " []];
                stdin := flush (stdin w);
                cmd_timer := true;
                cmd_buffer := cmd_buffer w;
                index := index w |}) /\
  (0 < n <= 125000000 ->
   exists w' : world GeneratorState,
     cmd_execute (lit "freq" ++ sep :: arg) w = Done tt w' /\
     clk w' = setFrequency n (clk w) /\
     clock_get_freq_hz (clk w') = n).
Proof.
  intros Ha. pose proof (atoi_in_int arg n Ha) as Hint.
  rewrite (cmd_execute_freq arg sep n w Ha).
  split; intros Hn.
  - rewrite to_uint32_int by lia.
    destruct (Z.ltb_spec 125000000 n); [reflexivity | lia].
  - rewrite to_uint32_int by lia.
    destruct (Z.ltb_spec 125000000 n); [lia|].
    destruct (info_then_run
                (set_clk (clock_set_freq_hz n (clk w)) (set_cmd_timer false w)))
      as (w' & Hrun & Hclk & _).
    exists w'. split; [exact Hrun|]. rewrite Hclk. cbn.
    split; [reflexivity|]. apply setFrequency_read. lia.
Qed.

Lemma freq_command_witness :
  exists w' : world GeneratorState,
    cmd_execute (lit "freq" ++ " "%char :: lit "440")
      (boot (startup RepeatingTimer 1)) = Done tt w' /\
    clk w' = setFrequency 440 (clk (boot (startup RepeatingTimer 1))) /\
    clock_get_freq_hz (clk w') = 440.
Proof.
  apply (freq_command (lit "440") " "%char 440
           (boot (startup RepeatingTimer 1))).
  - reflexivity.
  - lia.
Defined.

(** C4, at the input that breaks it: with a timer kind other than RPT, the
    line "duty 65586" is not rejected although 65586 > 100. The value is
    narrowed to 16 bits before it is compared with 100, so
    [clock_set_duty_cycle] is called with 50. *)
Theorem duty_wraps_before_check (S : Type) (C : Clock S) (w : world S) :
  clock_get_timer_type (clk w) <> CLOCK_TIMER_RPT ->
  atoi (drop 5 (line "duty 65586")) = Some 65586 /\
  cmd_execute (line "duty 65586") w =
    bind cmd_info (fun _ => cmd_run)
      (set_clk (clock_set_duty_cycle 50 (clk w)) (set_cmd_timer false w)).
Proof.
  intros Hkind. split; [reflexivity|].
  change (line "duty 65586")
    with (lit "duty" ++ " "%char :: (lit "65586" ++ replicate 246 NUL)).
  rewrite (cmd_execute_duty _ _ 65586 w) by reflexivity.
  apply Z.eqb_neq in Hkind. rewrite Hkind. reflexivity.
Qed.

Lemma duty_wraps_before_check_witness :
  exists w' : world GeneratorState,
    cmd_execute (line "duty 65586") (boot (startup PWM 1)) = Done tt w' /\
    clock_get_duty_cycle (clk w') = 50.
Proof.
  destruct (duty_wraps_before_check GeneratorState spec_clock
              (boot (startup PWM 1))) as [_ Hrun].
  - discriminate.
  - rewrite Hrun.
    destruct (info_then_run
                (set_clk (clock_set_duty_cycle 50 (clk (boot (startup PWM 1))))
                   (set_cmd_timer false (boot (startup PWM 1)))))
      as (w' & Hrun' & Hclk & _).
    exists w'. split; [exact Hrun'|]. rewrite Hclk. reflexivity.
Defined.

Lemma fallback_step_or_unknown_witness :
  cmd_execute (line "foobar") (boot (startup RepeatingTimer 1)) =
    Done tt {| clk := startup RepeatingTimer 1;
               stdout := [Printf "Unknown command\n" []; Printf ">>> " []];
               stdin := [];
               cmd_timer := true;
               cmd_buffer := replicate 256 NUL;
               index := 0%N |}.
Proof.
  apply (fallback_step_or_unknown (line "foobar")
           (boot (startup RepeatingTimer 1))).
  - repeat constructor; intros E; vm_compute in E; discriminate E.
  - intros E; vm_compute in E; discriminate E.
  - intros E; vm_compute in E; discriminate E.
  - discriminate.
Defined.

(* ================================================================= *)
(** * The console's line buffer *)

Lemma newline_not_backspace (c : ascii) :
  is_newline c = true -> is_backspace c = false.
Proof.
  destruct c as [[] [] [] [] [] [] [] []]; try discriminate; reflexivity.
Qed.

(** A buffer whose bytes from position [i] on are NUL holds a string of at
    most [i] characters. *)
Lemma cstr_length_le (l : list ascii) (i : nat) :
  (forall j : nat, (i <= j < List.length l)%nat -> l !! j = Some NUL) ->
  (List.length (cstr l) <= i)%nat.
Proof.
  revert i. induction l as [|c r IH]; intros i Hz; cbn [cstr].
  - simpl. lia.
  - destruct (Ascii.eqb_spec c NUL) as [Hc|Hc]; [simpl; lia|].
    destruct i as [|i].
    + exfalso. apply Hc.
      specialize (Hz 0%nat). cbn in Hz.
      assert (Hs : Some c = Some NUL) by (apply Hz; lia).
      now injection Hs.
    + cbn [List.length]. apply le_n_S, IH.
      intros j Hj. apply (Hz (Datatypes.S j)). cbn [List.length]. lia.
Qed.

Section LineBuffer.

Context {S : Type} `{Clock S}.

Ltac run :=
  unfold cmd_timer_callback, printf, getchar_timeout_us, get_index, put_index,
    get_cmd_buffer, store_cmd_buffer, memset_cmd_buffer, bind, ret;
  cbn [clk stdout stdin cmd_timer cmd_buffer index
       set_clk set_stdout set_stdin set_cmd_timer set_cmd_buffer set_index].

Ltac fields :=
  cbn [clk stdout stdin cmd_timer cmd_buffer index
       set_clk set_stdout set_stdin set_cmd_timer set_cmd_buffer set_index].

Ltac fields_in H :=
  cbn [clk stdout stdin cmd_timer cmd_buffer index
       set_clk set_stdout set_stdin set_cmd_timer set_cmd_buffer set_index] in H.

(** *** One run of the callback, case by case *)

Lemma callback_timeout (cd : cmd_data_t) (w : world S) :
  stdin w = [] -> cmd_timer_callback cd w = Done true w.
Proof. intros Hin. run. now rewrite Hin. Qed.

Lemma callback_backspace_empty (cd : cmd_data_t) (w : world S) c r :
  stdin w = c :: r -> is_backspace c = true -> index w = 0%N ->
  cmd_timer_callback cd w =
    Done true {| clk := clk w;
                 stdout := stdout w ++ [Printf " " []];
                 stdin := r;
                 cmd_timer := cmd_timer w;
                 cmd_buffer := cmd_buffer w;
                 index := index w |}.
Proof.
  intros Hin Hb Hi. run. rewrite Hin. run. rewrite Hb.
  apply N.eqb_eq in Hi. now rewrite Hi.
Qed.

Lemma callback_backspace (cd : cmd_data_t) (w : world S) c r :
  stdin w = c :: r -> is_backspace c = true -> index w <> 0%N ->
  cmd_timer_callback cd w =
    Done true {| clk := clk w;
                 stdout := stdout w ++ [Printf " \b \b" []];
                 stdin := r;
                 cmd_timer := cmd_timer w;
                 cmd_buffer :=
                   <[N.to_nat (index w - 1) := NUL]> (cmd_buffer w);
                 index := (index w - 1)%N |}.
Proof.
  intros Hin Hb Hi. run. rewrite Hin. run. rewrite Hb.
  apply N.eqb_neq in Hi. now rewrite Hi.
Qed.

Lemma callback_newline (cd : cmd_data_t) (w : world S) c r :
  stdin w = c :: r -> is_newline c = true ->
  cmd_timer_callback cd w =
    bind (cmd_data_cmd_execute cd (cmd_buffer w)) (fun _ => after_dispatch)
      (set_stdin r w).
Proof.
  intros Hin Hn. unfold after_dispatch. run. rewrite Hin. run.
  now rewrite (newline_not_backspace c Hn), Hn.
Qed.

Lemma callback_store (cd : cmd_data_t) (w : world S) c r :
  stdin w = c :: r -> is_backspace c = false -> is_newline c = false ->
  (index w < 255)%N ->
  cmd_timer_callback cd w =
    Done true {| clk := clk w;
                 stdout := stdout w;
                 stdin := r;
                 cmd_timer := cmd_timer w;
                 cmd_buffer := <[N.to_nat (index w) := c]> (cmd_buffer w);
                 index := (index w + 1)%N |}.
Proof.
  intros Hin Hb Hn Hi. run. rewrite Hin. run. rewrite Hb, Hn.
  change (256 - 1)%N with 255%N.
  apply N.ltb_lt in Hi. now rewrite Hi.
Qed.

Lemma callback_full (cd : cmd_data_t) (w : world S) c r :
  stdin w = c :: r -> is_backspace c = false -> is_newline c = false ->
  (255 <= index w)%N ->
  cmd_timer_callback cd w = Done true (set_stdin r w).
Proof.
  intros Hin Hb Hn Hi. run. rewrite Hin. run. rewrite Hb, Hn.
  change (256 - 1)%N with 255%N.
  apply N.ltb_ge in Hi. now rewrite Hi.
Qed.

(** *** The buffer stays in order *)

Lemma buffer_ok_boot (s : S) : buffer_ok (boot s).
Proof.
  unfold buffer_ok, boot. fields. split; [apply length_replicate|].
  split; [lia|].
  intros j Hj. apply lookup_replicate_2. lia.
Qed.

Lemma after_dispatch_result (w : world S) :
  after_dispatch w =
    Done true (set_index 0%N (set_cmd_buffer (replicate 256 NUL) w)).
Proof. reflexivity. Qed.

Lemma buffer_ok_cleared (w : world S) :
  buffer_ok (set_index 0%N (set_cmd_buffer (replicate 256 NUL) w)).
Proof.
  unfold buffer_ok. fields. split; [apply length_replicate|].
  split; [lia|].
  intros j Hj. apply lookup_replicate_2. lia.
Qed.

Lemma buffer_ok_same (w w' : world S) :
  cmd_buffer w' = cmd_buffer w -> index w' = index w ->
  buffer_ok w -> buffer_ok w'.
Proof. unfold buffer_ok. intros -> ->. trivial. Qed.

Lemma cmd_init_buffer (w0 w : world S) :
  cmd_init w0 = Done tt w ->
  cmd_buffer w = cmd_buffer w0 /\ index w = index w0.
Proof.
  unfold cmd_init, cmd_boot_message, cmd_info, cmd_run, cmd_flush,
    add_repeating_timer_ms, get_clk. run.
  destruct (to_uint8 (clock_get_timer_type (clk w0)) =? 0);
    intros Hrun; injection Hrun as <-; fields; auto.
Qed.

Lemma callback_keeps_buffer (cd : cmd_data_t) (w w' : world S) (b : bool) :
  buffer_ok w -> cmd_timer_callback cd w = Done b w' -> buffer_ok w'.
Proof.
  intros Hok Hrun. pose proof Hok as (Hlen & Hidx & Hzero).
  destruct (stdin w) as [|c r] eqn:Hin.
  { rewrite callback_timeout in Hrun by trivial. now injection Hrun as _ <-. }
  destruct (is_backspace c) eqn:Hb.
  - destruct (N.eq_dec (index w) 0%N) as [Hi|Hi].
    + rewrite (callback_backspace_empty cd w c r) in Hrun by trivial.
      injection Hrun as _ <-. now apply (buffer_ok_same w).
    + rewrite (callback_backspace cd w c r) in Hrun by trivial.
      injection Hrun as _ <-. unfold buffer_ok. fields.
      rewrite length_insert. split; [exact Hlen|]. split; [lia|].
      intros j Hj.
      destruct (Nat.eq_dec j (N.to_nat (index w - 1))) as [->|Hne].
      * apply list_lookup_insert_eq. lia.
      * rewrite list_lookup_insert_ne by congruence. apply Hzero. lia.
  - destruct (is_newline c) eqn:Hn.
    + rewrite (callback_newline cd w c r) in Hrun by trivial.
      unfold bind at 1 in Hrun.
      destruct (cmd_data_cmd_execute cd (cmd_buffer w) (set_stdin r w))
        as [[] w1 | w1 |]; try discriminate Hrun.
      rewrite after_dispatch_result in Hrun.
      assert (Hw : set_index 0%N (set_cmd_buffer (replicate 256 NUL) w1) = w')
        by congruence.
      rewrite <- Hw. apply buffer_ok_cleared.
    + destruct (N.lt_ge_cases (index w) 255%N) as [Hi|Hi].
      * rewrite (callback_store cd w c r) in Hrun by trivial.
        injection Hrun as _ <-. unfold buffer_ok. fields.
        rewrite length_insert. split; [exact Hlen|]. split; [lia|].
        intros j Hj. rewrite list_lookup_insert_ne by lia. apply Hzero. lia.
      * rewrite (callback_full cd w c r) in Hrun by trivial.
        injection Hrun as _ <-. now apply (buffer_ok_same w).
Qed.

Lemma reachable_buffer_ok (cd : cmd_data_t) (w : world S) :
  reachable cd w -> buffer_ok w.
Proof.
  induction 1 as [s w Hinit | w bytes _ IH | w s _ IH | w w' b _ IH _ Hrun].
  - destruct (cmd_init_buffer _ _ Hinit) as [Hb Hi].
    apply (buffer_ok_same (boot s)); trivial. apply buffer_ok_boot.
  - now apply (buffer_ok_same w).
  - now apply (buffer_ok_same w).
  - now apply (callback_keeps_buffer cd w w' b).
Qed.

(** *** A run of bytes that are neither editing nor line-ending *)

Lemma poll_ordinary (cd : cmd_data_t) (bytes rest : list ascii) (w : world S) :
  Forall (fun c => is_backspace c = false /\ is_newline c = false) bytes ->
  stdin w = bytes ++ rest ->
  cmd_timer w = true ->
  (index w <= 255)%N ->
  exists w' : world S,
    poll cd (List.length bytes) w = Done tt w' /\
    clk w' = clk w /\ stdout w' = stdout w /\ cmd_timer w' = true /\
    stdin w' = rest /\
    index w' = N.min (index w + N.of_nat (List.length bytes)) 255.
Proof.
  intros Hord. revert w.
  induction Hord as [|c bytes [Hb Hn] _ IH]; intros w Hin Htimer Hi.
  - exists w. cbn [poll List.length]. unfold ret.
    repeat split; trivial. lia.
  - cbn [List.length poll]. unfold bind at 1, tick. rewrite Htimer.
    unfold bind at 1.
    destruct (N.lt_ge_cases (index w) 255%N) as [Hlt|Hge].
    + rewrite (callback_store cd w c (bytes ++ rest)) by trivial.
      unfold ret at 1.
      edestruct IH as (w' & Hrun & Hc & Ho & Ht & Hs & Hx);
        [| | | exists w'; split; [exact Hrun|]].
      * reflexivity.
      * exact Htimer.
      * fields. lia.
      * fields_in Hc; fields_in Ho; fields_in Hx.
        repeat split; trivial. rewrite Hx. lia.
    + rewrite (callback_full cd w c (bytes ++ rest)) by trivial.
      unfold ret at 1.
      edestruct IH as (w' & Hrun & Hc & Ho & Ht & Hs & Hx);
        [| | | exists w'; split; [exact Hrun|]].
      * reflexivity.
      * exact Htimer.
      * fields. lia.
      * fields_in Hc; fields_in Ho; fields_in Hx.
        repeat split; trivial. rewrite Hx. lia.
Qed.

(** *** The claim *)

(** C8: the line buffer never holds more than 255 characters: in every
    state the console reaches, [index] is at most 255 and the string in the
    buffer has at most 255 characters; a byte received when the buffer is
    full is dropped, without dispatch; a line is dispatched when a newline
    or a carriage return is read, and only then (a run of the callback on
    any other byte, or on none, does not depend on the dispatch function;
    while the timer is installed, any number of bytes that are neither
    editing nor line-ending are consumed one per period with the clock's
    state, the output and the timer as before); and a backspace
    read when the buffer is empty leaves [index] and the buffer alone, does
    not dispatch, and prints one space. *)
Theorem line_buffer_bounded (cd : cmd_data_t) (w : world S) :
  (reachable cd w ->
     (index w <= 255)%N /\ (List.length (cstr (cmd_buffer w)) <= 255)%nat) /\
  (forall (c : ascii) (r : list ascii),
     stdin w = c :: r -> is_backspace c = false -> is_newline c = false ->
     index w = 255%N ->
     cmd_timer_callback cd w = Done true (set_stdin r w)) /\
  (forall (c : ascii) (r : list ascii),
     stdin w = c :: r -> is_newline c = true ->
     cmd_timer_callback cd w =
       bind (cmd_data_cmd_execute cd (cmd_buffer w)) (fun _ => after_dispatch)
         (set_stdin r w)) /\
  (forall cd' : cmd_data_t,
     (forall (c : ascii) (r : list ascii),
        stdin w = c :: r -> is_newline c = false) ->
     cmd_timer_callback cd w = cmd_timer_callback cd' w) /\
  (forall bytes rest : list ascii,
     Forall (fun c => is_backspace c = false /\ is_newline c = false) bytes ->
     stdin w = bytes ++ rest ->
     cmd_timer w = true ->
     (index w <= 255)%N ->
     exists w' : world S,
       poll cd (List.length bytes) w = Done tt w' /\
       clk w' = clk w /\ stdout w' = stdout w /\ cmd_timer w' = true /\
       stdin w' = rest /\
       index w' = N.min (index w + N.of_nat (List.length bytes)) 255) /\
  (forall (c : ascii) (r : list ascii),
     stdin w = c :: r -> is_backspace c = true -> index w = 0%N ->
     cmd_timer_callback cd w =
       Done true {| clk := clk w;
                    stdout := stdout w ++ [Printf " " []];
                    stdin := r;
                    cmd_timer := cmd_timer w;
                    cmd_buffer := cmd_buffer w;
                    index := index w |}).
Proof.
  split; [|split; [|split; [|split; [|split]]]].
  - intros Hreach. apply reachable_buffer_ok in Hreach.
    destruct Hreach as (Hlen & Hidx & Hzero). split; [exact Hidx|].
    transitivity (N.to_nat (index w)); [|lia].
    apply cstr_length_le. intros j Hj. apply Hzero. lia.
  - intros c r Hin Hb Hn Hi. apply (callback_full cd w c r); trivial. lia.
  - intros c r Hin Hn. now apply (callback_newline cd w c r).
  - intros cd' Hnot.
    destruct (stdin w) as [|c r] eqn:Hin.
    { rewrite (callback_timeout cd w), (callback_timeout cd' w); trivial. }
    pose proof (Hnot c r eq_refl) as Hn.
    destruct (is_backspace c) eqn:Hb.
    + destruct (N.eq_dec (index w) 0%N) as [Hi|Hi].
      * rewrite (callback_backspace_empty cd w c r), (callback_backspace_empty cd' w c r); trivial.
      * rewrite (callback_backspace cd w c r), (callback_backspace cd' w c r); trivial.
    + destruct (N.lt_ge_cases (index w) 255%N) as [Hi|Hi].
      * rewrite (callback_store cd w c r), (callback_store cd' w c r); trivial.
      * rewrite (callback_full cd w c r), (callback_full cd' w c r); trivial.
  - intros bytes rest Hord Hin Ht Hi. now apply poll_ordinary.
  - intros c r Hin Hb Hi. now apply (callback_backspace_empty cd w c r).
Qed.

End LineBuffer.

Lemma line_buffer_bounded_witness :
  exists w' : world GeneratorState,
    poll the_cmd_data 260
      (set_stdin (replicate 260 "a"%char)
         (set_cmd_timer true (boot (startup RepeatingTimer 1))))
    = Done tt w' /\
    clk w' = startup RepeatingTimer 1 /\ stdout w' = [] /\ stdin w' = [] /\
    index w' = 255%N.
Proof.
  destruct (line_buffer_bounded the_cmd_data
              (set_stdin (replicate 260 "a"%char)
                 (set_cmd_timer true (boot (startup RepeatingTimer 1)))))
    as (_ & _ & _ & _ & Hpoll & _).
  destruct (Hpoll (replicate 260 "a"%char) [])
    as (w' & Hrun & Hclk & Hout & _ & Hin & Hidx).
  - apply Forall_replicate. split; reflexivity.
  - cbn [stdin set_stdin]. now rewrite app_nil_r.
  - reflexivity.
  - cbn [index set_stdin set_cmd_timer boot]. lia.
  - exists w'. rewrite length_replicate in Hrun, Hidx.
    split; [exact Hrun|]. split; [exact Hclk|]. split; [exact Hout|].
    split; [exact Hin|]. exact Hidx.
Defined.

(* ================================================================= *)
(** * Further properties *)

(** X1: what the duty command does in general. The integer read by [atoi]
    is narrowed to 16 bits first; with [d] the narrowed value: when the
    timer type is RPT the command prints its PWM-only message and leaves
    the clock alone; otherwise, when [d > 100], it prints the over-100
    message and leaves the clock alone; otherwise it calls
    [clock_set_duty_cycle d]. For [0 <= n < 65536], [d] is [n]. *)
Theorem duty_command (S : Type) (C : Clock S) (arg : list ascii) (sep : ascii)
    (n : Z) (w : world S) :
  atoi arg = Some n ->
  (0 <= n < 65536 -> to_uint16 n = n) /\
  (clock_get_timer_type (clk w) = CLOCK_TIMER_RPT ->
   cmd_execute (lit "duty" ++ sep :: arg) w =
     Done tt {| clk := clk w;
                stdout := stdout w ++
                  [Printf "Duty cycle can only be set in PWM mode\n" [];
                   Printf ">>> " []];
                stdin := flush (stdin w);
                cmd_timer := true;
                cmd_buffer := cmd_buffer w;
                index := index w |}) /\
  (clock_get_timer_type (clk w) <> CLOCK_TIMER_RPT -> 100 < to_uint16 n ->
   cmd_execute (lit "duty" ++ sep :: arg) w =
     Done tt {| clk := clk w;
                stdout := stdout w ++
                  [Printf "Duty cycle cannot be greater than 100\n" [];
                   Printf ">>> " []];
                stdin := flush (stdin w);
                cmd_timer := true;
                cmd_buffer := cmd_buffer w;
                index := index w |}) /\
  (clock_get_timer_type (clk w) <> CLOCK_TIMER_RPT -> to_uint16 n <= 100 ->
   exists w' : world S,
     cmd_execute (lit "duty" ++ sep :: arg) w = Done tt w' /\
     clk w' = clock_set_duty_cycle (to_uint16 n) (clk w)).
Proof.
  intros Ha. rewrite (cmd_execute_duty arg sep n w Ha).
  split; [intros Hn; unfold to_uint16; apply Z.mod_small; lia|].
  split; [|split].
  - intros Hk. apply Z.eqb_eq in Hk. now rewrite Hk.
  - intros Hk Hd. apply Z.eqb_neq in Hk. apply Z.ltb_lt in Hd.
    now rewrite Hk, Hd.
  - intros Hk Hd. apply Z.eqb_neq in Hk. rewrite Hk.
    destruct (Z.ltb_spec 100 (to_uint16 n)); [lia|].
    destruct (info_then_run
                (set_clk (clock_set_duty_cycle (to_uint16 n) (clk w))
                   (set_cmd_timer false w)))
      as (w' & Hrun & Hclk & _).
    exists w'. split; [exact Hrun | exact Hclk].
Qed.

Lemma duty_command_witness :
  exists w' : world GeneratorState,
    cmd_execute (lit "duty" ++ " "%char :: lit "70") (boot (startup PWM 1))
    = Done tt w' /\
    clk w' = clock_set_duty_cycle (to_uint16 70) (clk (boot (startup PWM 1))).
Proof.
  apply (duty_command GeneratorState spec_clock (lit "70") " "%char 70
           (boot (startup PWM 1))).
  - reflexivity.
  - discriminate.
  - vm_compute. discriminate.
Defined.

(** X2: a negative argument of the freq command is rejected: converted to
    [u_int32_t] it exceeds the cap, so the over-cap message is printed and
    the clock is left alone. *)
Theorem freq_negative_rejected (S : Type) (C : Clock S) (arg : list ascii)
    (sep : ascii) (n : Z) (w : world S) :
  atoi arg = Some n -> n < 0 ->
  cmd_execute (lit "freq" ++ sep :: arg) w =
    Done tt {| clk := clk w;
               stdout := stdout w ++
                 [Printf "Frequency cannot be greater than 125000000\n" [];
                  Printf ">>> " []];
               stdin := flush (stdin w);
               cmd_timer := true;
               cmd_buffer := cmd_buffer w;
               index := index w |}.
Proof.
  intros Ha Hn. pose proof (atoi_in_int arg n Ha) as Hint.
  rewrite (cmd_execute_freq arg sep n w Ha).
  assert (Hbig : 125000000 < to_uint32 n).
  { unfold to_uint32, INT_MIN in *.
    replace n with (n + 2 ^ 32 + (-1) * 2 ^ 32) by lia.
    rewrite Z.mod_add by lia. rewrite Z.mod_small by lia. lia. }
  apply Z.ltb_lt in Hbig. now rewrite Hbig.
Qed.

Lemma freq_negative_rejected_witness :
  cmd_execute (lit "freq" ++ " "%char :: lit "-5")
    (boot (startup RepeatingTimer 1)) =
    Done tt {| clk := startup RepeatingTimer 1;
               stdout :=
                 [Printf "Frequency cannot be greater than 125000000\n" [];
                  Printf ">>> " []];
               stdin := [];
               cmd_timer := true;
               cmd_buffer := replicate 256 NUL;
               index := 0%N |}.
Proof.
  apply (freq_negative_rejected GeneratorState spec_clock (lit "-5") " "%char
           (-5) (boot (startup RepeatingTimer 1))).
  - reflexivity.
  - lia.
Defined.

Lemma fold_sum_bounds (reads : list Z) (acc : Z) :
  Forall (fun r => 0 <= r <= 4095) reads ->
  acc <= fold_left Z.add reads acc <= acc + 4095 * Z.of_nat (List.length reads).
Proof.
  intros Hr. revert acc. induction Hr as [|r reads Hr0 _ IH]; intros acc.
  - simpl. lia.
  - cbn [fold_left List.length]. specialize (IH (acc + r)). lia.
Qed.

Lemma to_int_id (z : Z) : INT_MIN <= z <= INT_MAX -> to_int z = z.
Proof.
  unfold INT_MIN, INT_MAX, to_int. intros Hz.
  rewrite Z.mod_small by lia. lia.
Qed.

Lemma main_setup_frequency (CLOCK_FREQ : Z) (g : Main.globals) :
  CLOCK_FREQ <= INT_MAX -> 1 <= Main.frequency g ->
  1 <= Main.frequency (fst (Main.main_setup CLOCK_FREQ g)).
Proof.
  intros Hmax Hg. unfold Main.main_setup.
  destruct (Z.ltb_spec 0 CLOCK_FREQ) as [Hpos|Hneg];
    destruct (Z.eqb_spec CLOCK_FREQ 0); cbn; try lia.
  rewrite to_int_id by (unfold INT_MIN; lia). lia.
Qed.



(* ================================================================= *)
(** * main.c: the states it reaches, and interrupts during a pulse *)

Section MainRuns.

Import Main.

Variable CLOCK_FREQ : Z.
Variable CLOCK_DEBUG : Z.

Lemma adc_scale_range (reads : list Z) :
  List.length reads = 64%nat ->
  Forall (fun r => 0 <= r <= 4095) reads ->
  1 <= adc_scale reads <= 1000.
Proof.
  intros Hlen Hr. unfold adc_scale.
  pose proof (fold_sum_bounds reads 0 Hr) as Hs. rewrite Hlen in Hs.
  set (sum := fold_left Z.add reads 0) in *.
  assert (Hq : 0 <= Z.quot sum 64 <= 4095).
  { rewrite Z.quot_div_nonneg by lia. split.
    - apply Z.div_pos; lia.
    - apply Z.div_le_upper_bound; lia. }
  rewrite (Z.quot_div_nonneg (Z.quot sum 64 * 999)) by lia.
  assert (0 <= Z.quot sum 64 * 999 / 4095) by (apply Z.div_pos; lia).
  assert (Z.quot sum 64 * 999 / 4095 <= 999)
    by (apply Z.div_le_upper_bound; lia).
  lia.
Qed.

Lemma handler_keeps_ok (gpio now : Z) (g : globals) :
  globals_ok g -> globals_ok (handle_button_interrupt gpio now g).
Proof.
  unfold globals_ok, handle_button_interrupt.
  intros (Hf & Hd & Hm & Hp).
  destruct (debounced now g); [auto|].
  destruct (gpio =? MODE_PIN).
  - destruct (mode g =? ASTABLE); cbn; auto 10.
  - destruct ((gpio =? STEP_PIN) && (mode g =? MONOSTABLE)); cbn; auto 10.
Qed.

Lemma loop_low_keeps_ok (l : Z) (g : globals) :
  globals_ok g -> globals_ok (snd (loop_low l g)).
Proof.
  unfold globals_ok, loop_low. intros (Hf & Hd & Hm & Hp).
  destruct (mode g =? ASTABLE); cbn; auto 10.
Qed.

Lemma ok_times (g : globals) :
  globals_ok g ->
  high_time g = Some (1000 / frequency g * 50 / 100) /\
  low_time g = Some (1000 / frequency g - 1000 / frequency g * 50 / 100) /\
  0 <= 1000 / frequency g * 50 / 100 <= 1000 /\
  0 <= 1000 / frequency g - 1000 / frequency g * 50 / 100 <= 1000.
Proof.
  intros (Hf & Hd & _).
  assert (Hp : 0 <= 1000 / frequency g <= 1000).
  { split; [apply Z.div_pos; lia | apply Z.div_le_upper_bound; nia]. }
  assert (Hh : 0 <= 1000 / frequency g * 50 / 100 <= 1000 / frequency g).
  { split; [apply Z.div_pos; lia | apply Z.div_le_upper_bound; lia]. }
  assert (Hq : Z.quot 1000 (frequency g) = 1000 / frequency g)
    by (apply Z.quot_div_nonneg; lia).
  assert (Hhigh : high_time g = Some (1000 / frequency g * 50 / 100)).
  { unfold high_time, sleep_in_ms. destruct (Z.eqb_spec (frequency g) 0); [lia|].
    rewrite Hq, Hd. unfold in_int, INT_MIN, INT_MAX.
    destruct (Z.leb_spec (- 2 ^ 31) (1000 / frequency g * 50)); [|lia].
    destruct (Z.leb_spec (1000 / frequency g * 50) (2 ^ 31 - 1)); [|lia].
    cbn [andb]. now rewrite Z.quot_div_nonneg by lia. }
  split; [exact Hhigh|]. split; [|lia].
  unfold low_time. rewrite Hhigh. unfold sleep_in_ms.
  destruct (Z.eqb_spec (frequency g) 0); [lia|]. rewrite Hq.
  unfold in_int, INT_MIN, INT_MAX.
  destruct (Z.leb_spec (- 2 ^ 31)
              (1000 / frequency g - 1000 / frequency g * 50 / 100)); [|lia].
  destruct (Z.leb_spec (1000 / frequency g - 1000 / frequency g * 50 / 100)
              (2 ^ 31 - 1)); [|lia].
  reflexivity.
Qed.

Lemma loop_body_split (g : globals) :
  loop_body CLOCK_DEBUG g =
    match loop_high CLOCK_DEBUG g with
    | None => None
    | Some (out, None) => Some (out, g)
    | Some (out, Some l) =>
        let (out', g') := loop_low l g in Some (out ++ out', g')
    end.
Proof.
  unfold loop_body, loop_high, loop_low.
  destruct (pulse g =? 0); [reflexivity|].
  destruct (high_time g) as [h|]; [|reflexivity].
  destruct (low_time g) as [l|]; [|reflexivity].
  destruct (mode g =? ASTABLE); [reflexivity|]. now rewrite app_nil_r.
Qed.

Lemma loop_body_keeps_ok (g g' : globals) (out : list action) :
  globals_ok g -> loop_body CLOCK_DEBUG g = Some (out, g') -> globals_ok g'.
Proof.
  intros Hok. rewrite loop_body_split.
  destruct (loop_high CLOCK_DEBUG g) as [[o [l|]]|]; try discriminate.
  - pose proof (loop_low_keeps_ok l g Hok) as Hl.
    destruct (loop_low l g) as [o' g1]. intros Hrun.
    injection Hrun as _ <-. exact Hl.
  - intros Hrun. now injection Hrun as _ <-.
Qed.

Hypothesis CLOCK_FREQ_int : CLOCK_FREQ <= INT_MAX.

Lemma running_ok (p : pc) (g : globals) :
  running CLOCK_FREQ CLOCK_DEBUG p g -> globals_ok g.
Proof.
  induction 1 as [|p g gpio now _ IH|p g reads _ IH Hcore Hlen Hr
                  |g out l _ IH _|g l _ IH _|g l _ IH _|g _ IH].
  - pose proof (main_setup_frequency CLOCK_FREQ initial CLOCK_FREQ_int) as Hf.
    unfold globals_ok. split; [apply Hf; cbn; lia|].
    unfold main_setup.
    destruct (negb (CLOCK_FREQ =? 0) && (0 <? CLOCK_FREQ)); cbn; auto.
  - now apply handler_keeps_ok.
  - destruct IH as (Hf & Hd & Hm & Hp).
    destruct (adc_scale_range reads Hlen Hr) as [Hlo _].
    unfold globals_ok, start_adc_round. cbn. auto.
  - exact IH.
  - exact IH.
  - exact IH.
  - destruct IH as (Hf & Hd & Hm & Hp). unfold globals_ok. cbn. auto.
Qed.

(** X4: in every state main.c reaches, for a build whose [CLOCK_FREQ] fits
    [int]: with interrupts and ADC rounds of core 1 arriving in any order
    between any two accesses of the loop to the globals (also between
    its test of [mode] and its store [pulse = false]), the frequency is at
    least 1, the duty cycle is 50, [mode] and [pulse] hold one of their
    two values, and the loop's iteration is defined: no division by zero,
    no overflow. *)
Theorem loop_always_defined (p : pc) (g : globals) :
  running CLOCK_FREQ CLOCK_DEBUG p g ->
  globals_ok g /\
  (exists (out : list action) (l : option Z),
     loop_high CLOCK_DEBUG g = Some (out, l)) /\
  exists (out : list action) (g' : globals),
    loop_body CLOCK_DEBUG g = Some (out, g').
Proof.
  intros Hrun. pose proof (running_ok p g Hrun) as Hok. split; [exact Hok|].
  destruct (ok_times g Hok) as (Hh & Hl & _). split.
  - unfold loop_high. rewrite Hh, Hl. destruct (pulse g =? 0); eauto.
  - unfold loop_body. rewrite Hh, Hl.
    destruct (pulse g =? 0); [eauto|].
    destruct (mode g =? ASTABLE); eauto.
Qed.

(** X15: the loop can silence itself in Astable. When a MODE edge is
    accepted between the loop's test of [mode] (which found Monostable) and
    its store [pulse = false], the handler switches to Astable and sets
    [pulse], and the store then clears it: the state reached has
    [mode = ASTABLE] and [pulse = false], in which the loop emits nothing,
    however long it runs, until another edge is accepted. *)
Theorem astable_silenced (g : globals) (l now : Z) :
  running CLOCK_FREQ CLOCK_DEBUG (AfterHigh l) g ->
  mode g = MONOSTABLE ->
  debounced now g = false ->
  let g' := set_pulse false_ (handle_button_interrupt MODE_PIN now g) in
  running CLOCK_FREQ CLOCK_DEBUG AtTop g' /\
  mode g' = ASTABLE /\ pulse g' = false_ /\
  forall n : nat, loop CLOCK_DEBUG n g' = Some ([], g').
Proof.
  intros Hrun Hm Hd g'. split; [|split; [|split]].
  - apply run_clear, run_irq. apply (run_test_else _ _ g l Hrun).
    rewrite Hm. discriminate.
  - subst g'. unfold handle_button_interrupt. rewrite Hd, Hm. reflexivity.
  - reflexivity.
  - intros n. apply loop_idle. reflexivity.
Qed.

Lemma loop_high_ok (g : globals) :
  globals_ok g -> pulse g = true_ ->
  loop_high CLOCK_DEBUG g =
    Some (pulse_actions CLOCK_DEBUG g (1000 / frequency g * 50 / 100)
            (1000 / frequency g - 1000 / frequency g * 50 / 100),
          Some (1000 / frequency g - 1000 / frequency g * 50 / 100)).
Proof.
  intros Hok Hp. destruct (ok_times g Hok) as (Hh & Hl & Hhr & _).
  unfold loop_high. rewrite Hp, Hh, Hl. cbn [Z.eqb true_].
  unfold pulse_actions. now rewrite to_uint32_small by lia.
Qed.

(** X5: a STEP edge accepted while the loop is inside the high pulse of a
    Monostable step is absorbed. The handler sets [pulse], which is set
    already, and the loop clears it when the pulse ends: the iteration
    emits the one pulse it would have emitted anyway, and the iterations
    after it emit nothing. Two step requests, one pulse. *)
Theorem step_during_pulse_absorbed (g : globals) (now : Z) :
  globals_ok g -> mode g = MONOSTABLE -> pulse g = true_ ->
  debounced now g = false ->
  let high := pulse_actions CLOCK_DEBUG g (1000 / frequency g * 50 / 100)
                (1000 / frequency g - 1000 / frequency g * 50 / 100) in
  let g' := set_pulse false_ (set_last_interrupt_ms now g) in
  loop_body CLOCK_DEBUG g = Some (high, set_pulse false_ g) /\
  loop_body_irq CLOCK_DEBUG STEP_PIN now g = Some (high, g') /\
  forall n : nat, loop CLOCK_DEBUG n g' = Some ([], g').
Proof.
  intros Hok Hm Hp Hd high g'. split; [|split].
  - rewrite loop_body_split, (loop_high_ok g Hok Hp).
    unfold loop_low. rewrite Hm. cbn. rewrite ?app_nil_r. reflexivity.
  - unfold loop_body_irq. rewrite (loop_high_ok g Hok Hp).
    unfold handle_button_interrupt. rewrite Hd, Hm.
    unfold loop_low. cbn. rewrite ?Hm. cbn. rewrite ?app_nil_r. reflexivity.
  - intros n. apply loop_idle. reflexivity.
Qed.

(** X6: a MODE edge accepted during the high sleep takes effect when that
    pulse ends. In Astable the pulse is completed, the low sleep of the
    iteration is skipped and the loop is left armed in Monostable with
    [pulse] cleared; in Monostable (during a step) the pulse is completed,
    the low sleep follows and the loop goes on free-running in Astable. *)
Theorem mode_edge_during_pulse (g : globals) (now : Z) :
  globals_ok g -> pulse g = true_ -> debounced now g = false ->
  let low := 1000 / frequency g - 1000 / frequency g * 50 / 100 in
  let high := pulse_actions CLOCK_DEBUG g (1000 / frequency g * 50 / 100) low in
  (mode g = ASTABLE ->
   loop_body_irq CLOCK_DEBUG MODE_PIN now g =
     Some (high,
           set_pulse false_
             (set_last_interrupt_ms now (set_mode MONOSTABLE g)))) /\
  (mode g = MONOSTABLE ->
   loop_body_irq CLOCK_DEBUG MODE_PIN now g =
     Some (high ++ [sleep_ms low],
           set_last_interrupt_ms now (set_mode ASTABLE g))).
Proof.
  intros Hok Hp Hd low high.
  destruct (ok_times g Hok) as (_ & _ & _ & Hlr).
  split; intros Hm.
  - unfold loop_body_irq. rewrite (loop_high_ok g Hok Hp).
    unfold handle_button_interrupt. rewrite Hd, Hm.
    unfold loop_low. cbn. rewrite ?Hm. cbn. rewrite ?app_nil_r. reflexivity.
  - unfold loop_body_irq. rewrite (loop_high_ok g Hok Hp).
    unfold handle_button_interrupt. rewrite Hd, Hm.
    unfold loop_low. cbn. rewrite ?Hm. cbn. fold low.
    rewrite to_uint32_small by (subst low; lia).
    destruct g; cbn in *; subst. reflexivity.
Qed.

(** X7: with main.c's duty cycle of 50, a frequency above 500 Hz leaves no
    high time: the high sleep is 0 ms, and the low sleep is 1 ms up to
    1000 Hz and 0 ms above. *)
Theorem high_time_zero_above_500 (g : globals) :
  globals_ok g -> 500 < frequency g ->
  high_time g = Some 0 /\
  low_time g = Some (if frequency g <=? 1000 then 1 else 0).
Proof.
  intros Hok Hf. destruct (ok_times g Hok) as (Hh & Hl & _).
  rewrite Hh, Hl.
  destruct (Z.leb_spec (frequency g) 1000) as [Hle|Hgt].
  - assert (Hq : 1000 / frequency g = 1).
    { symmetry. apply (Z.div_unique 1000 (frequency g) 1 (1000 - frequency g)); lia. }
    rewrite Hq. split; reflexivity.
  - rewrite (Z.div_small 1000 (frequency g)) by lia. split; reflexivity.
Qed.

End MainRuns.

Lemma loop_always_defined_witness :
  exists (out : list Main.action) (g' : Main.globals),
    Main.loop_body 0 (fst (Main.main_setup 440 Main.initial)) = Some (out, g').
Proof.
  apply (loop_always_defined 440 0 (proj1 (Z.leb_le 440 INT_MAX) eq_refl) Main.AtTop
           (fst (Main.main_setup 440 Main.initial))).
  apply Main.run_setup.
Defined.

Lemma astable_silenced_witness :
  Main.mode
    (Main.set_pulse Main.false_
       (Main.handle_button_interrupt Main.MODE_PIN 3000
          (Main.handle_button_interrupt Main.STEP_PIN 2000
             (Main.handle_button_interrupt Main.MODE_PIN 1000 Main.initial))))
  = Main.ASTABLE /\
  Main.pulse
    (Main.set_pulse Main.false_
       (Main.handle_button_interrupt Main.MODE_PIN 3000
          (Main.handle_button_interrupt Main.STEP_PIN 2000
             (Main.handle_button_interrupt Main.MODE_PIN 1000 Main.initial))))
  = Main.false_.
Proof.
  destruct (astable_silenced 0 0
              (Main.handle_button_interrupt Main.STEP_PIN 2000
                 (Main.handle_button_interrupt Main.MODE_PIN 1000 Main.initial))
              500 3000) as (_ & Hm & Hp & _).
  - apply (Main.run_high 0 0 _
             [Main.gpio_put 28 1; Main.gpio_put 16 1; Main.sleep_ms 500;
              Main.gpio_put 16 0; Main.gpio_put 28 0] 500);
      [|reflexivity].
    apply Main.run_irq, Main.run_irq. exact (Main.run_setup 0 0).
  - reflexivity.
  - reflexivity.
  - split; [exact Hm | exact Hp].
Defined.

Lemma step_during_pulse_absorbed_witness :
  Main.loop_body_irq 0 Main.STEP_PIN 1000
    (Main.set_mode Main.MONOSTABLE Main.initial)
  = Some ([Main.gpio_put 28 1; Main.gpio_put 16 1; Main.sleep_ms 500;
           Main.gpio_put 16 0; Main.gpio_put 28 0],
          Main.set_pulse 0
            (Main.set_last_interrupt_ms 1000
               (Main.set_mode Main.MONOSTABLE Main.initial))).
Proof.
  apply (step_during_pulse_absorbed 0
           (Main.set_mode Main.MONOSTABLE Main.initial) 1000);
    first [reflexivity | unfold Main.globals_ok; cbn; auto; lia].
Defined.

Lemma mode_edge_during_pulse_witness :
  Main.loop_body_irq 0 Main.MODE_PIN 1000 Main.initial
  = Some ([Main.gpio_put 28 1; Main.gpio_put 16 1; Main.sleep_ms 500;
           Main.gpio_put 16 0; Main.gpio_put 28 0],
          Main.set_pulse 0
            (Main.set_last_interrupt_ms 1000
               (Main.set_mode Main.MONOSTABLE Main.initial))).
Proof.
  apply (mode_edge_during_pulse 0 Main.initial 1000);
    first [reflexivity | unfold Main.globals_ok; cbn; auto; lia].
Defined.

Lemma high_time_zero_above_500_witness :
  Main.high_time (Main.set_frequency 501 Main.initial) = Some 0 /\
  Main.low_time (Main.set_frequency 501 Main.initial) = Some 1.
Proof.
  apply (high_time_zero_above_500 (Main.set_frequency 501 Main.initial)).
  - unfold Main.globals_ok; cbn; auto. repeat split; auto; lia.
  - cbn. lia.
Defined.

(* ================================================================= *)
(** * cmd.c: every command *)

Section Commands.

Context {S : Type} `{Clock S}.

Ltac run :=
  unfold cmd_run, cmd_stop, cmd_flush, cmd_help, cmd_boot_message, cmd_info,
    printf, clock_call, get_clk, cancel_repeating_timer, add_repeating_timer_ms,
    reset_usb_boot, undefined, bind, ret;
  cbn [clk stdout stdin cmd_timer cmd_buffer index
       set_clk set_stdout set_stdin set_cmd_timer set_cmd_buffer set_index].

(** [cmd_info] and [cmd_boot_message] only write to stdout. *)
Lemma cmd_info_writes (w : world S) :
  exists out : list output,
    cmd_info w = Done tt (set_stdout (stdout w ++ out) w).
Proof.
  run. destruct (to_uint8 (clock_get_timer_type (clk w)) =? 0);
    cbn [clk stdout stdin cmd_timer cmd_buffer index
         set_clk set_stdout set_stdin set_cmd_timer set_cmd_buffer set_index];
    rewrite <- ?app_assoc; eexists; reflexivity.
Qed.

Lemma cmd_boot_message_writes (w : world S) :
  exists out : list output,
    cmd_boot_message w = Done tt (set_stdout (stdout w ++ out) w).
Proof.
  unfold cmd_boot_message, bind, printf.
  match goal with
  | |- context [cmd_info ?x] => destruct (cmd_info_writes x) as [out Hout]
  end.
  eexists. rewrite Hout.
  cbn [clk stdout stdin cmd_timer cmd_buffer index
       set_clk set_stdout set_stdin set_cmd_timer set_cmd_buffer set_index].
  rewrite <- !app_assoc. reflexivity.
Qed.

(** A pointer whose string starts with [c] points at [c]. *)
Lemma cstr_cons_inv (p r : list ascii) (c : ascii) :
  cstr p = c :: r -> exists p' : list ascii, p = c :: p' /\ cstr p' = r /\ c <> NUL.
Proof.
  destruct p as [|c0 p']; [discriminate|]. cbn [cstr].
  destruct (Ascii.eqb_spec c0 NUL); [discriminate|].
  intros He. injection He as -> <-. eauto.
Qed.

Lemma take4_head (p r l : list ascii) (c c' : ascii) :
  cstr p = c :: r -> c <> c' -> take 4 p <> c' :: l.
Proof.
  intros Hc Hne Ht. destruct (cstr_cons_inv p r c Hc) as (p' & -> & _).
  cbn [take] in Ht. injection Ht as Ht _. contradiction.
Qed.

(** Decides the tests of [cmd_execute] for a line whose text is known. *)
Ltac settle Hc :=
  repeat first
    [ rewrite (strcmp_same _ (lit _)) by (rewrite Hc; reflexivity)
    | rewrite (strcmp_differs _ (lit _)) by
        (rewrite Hc; vm_compute; discriminate)
    | rewrite (strncmp4_differs _ (lit _)) by
        (first [ reflexivity
               | repeat constructor; discriminate
               | apply (take4_head _ _ _ _ _ Hc); discriminate ]) ].

Ltac fields :=
  cbn [clk stdout stdin cmd_timer cmd_buffer index
       set_clk set_stdout set_stdin set_cmd_timer set_cmd_buffer set_index].

(** The end of every branch that returns. *)
Ltac returned :=
  fields; rewrite <- ?app_assoc;
  repeat split;
    first [ reflexivity
          | rewrite ?app_assoc; apply last_snoc
          | apply prefix_app_r; reflexivity ].

(** How [cmd_execute] can end, and what a return leaves behind. *)
Lemma cmd_execute_cases (cmd : list ascii) (w : world S) :
  match cmd_execute cmd w with
  | Done _ w' =>
      cmd_timer w' = true /\
      stdin w' = flush (stdin w) /\
      cmd_buffer w' = cmd_buffer w /\
      index w' = index w /\
      last (stdout w') = Some (Printf ">>> " []) /\
      stdout w `prefix_of` stdout w'
  | BootSel w' =>
      cstr cmd = lit "reboot" /\
      w' = set_stdout (stdout w ++ [Printf "* Rebooting to BOOTSEL mode\n" []])
             (set_cmd_timer false w)
  | Undefined =>
      (take 4 cmd = lit "freq" \/ take 4 cmd = lit "duty") /\
      atoi (drop 5 cmd) = None
  end.
Proof.
  unfold cmd_execute.
  destruct (strcmp cmd (lit "?") =? 0); [run; returned|].
  destruct (strcmp cmd (lit "start") =? 0); [run; returned|].
  destruct (strcmp cmd (lit "stop") =? 0); [run; returned|].
  destruct (strcmp cmd (lit "step") =? 0).
  { run. destruct (to_uint8 _ =? 0); returned. }
  destruct (strncmp cmd (lit "freq") 4 =? 0) eqn:Hfreq.
  { apply Z.eqb_eq in Hfreq.
    apply (strncmp_zero cmd (lit "freq")) in Hfreq;
      [|repeat constructor; discriminate].
    destruct (atoi (drop 5 cmd)) as [n|]; [|run; auto].
    destruct (125000000 <? to_uint32 n); [run; returned|].
    run. destruct (to_uint8 _ =? 0); returned. }
  destruct (strncmp cmd (lit "duty") 4 =? 0) eqn:Hduty.
  { apply Z.eqb_eq in Hduty.
    apply (strncmp_zero cmd (lit "duty")) in Hduty;
      [|repeat constructor; discriminate].
    destruct (atoi (drop 5 cmd)) as [n|]; [|run; auto].
    run. destruct (clock_get_timer_type (clk w) =? CLOCK_TIMER_RPT);
      [returned|].
    destruct (100 <? to_uint16 n); [returned|].
    fields. destruct (to_uint8 _ =? 0); returned. }
  destruct (strcmp cmd (lit "reset") =? 0).
  { run. destruct (to_uint8 _ =? 0); returned. }
  destruct (strcmp cmd (lit "reboot") =? 0) eqn:Hreboot.
  { apply Z.eqb_eq, strcmp_zero in Hreboot. run. split; [exact Hreboot|].
    reflexivity. }
  destruct (strcmp cmd (lit "clear") =? 0).
  { run. destruct (to_uint8 _ =? 0); returned. }
  run.
  destruct ((strcmp cmd (lit "exit") =? 0) &&
            (clock_get_mode (clk w) =? CLOCK_MONOSTABLE)).
  { fields. destruct (to_uint8 _ =? 0); returned. }
  destruct (clock_get_mode (clk w) =? CLOCK_MONOSTABLE); returned.
Qed.

(** What every procedure of clock.h keeps, every command that returns
    keeps. *)
Lemma cmd_execute_keeps (P : S -> Prop) (cmd : list ascii) (w : world S) :
  (forall s, P s -> P (clock_pulse_start s)) ->
  (forall s, P s -> P (clock_pulse_stop s)) ->
  (forall b s, P s -> P (clock_step b s)) ->
  (forall s, P s -> P (clock_step_pulse s)) ->
  (forall hz s, P s -> P (clock_set_freq_hz hz s)) ->
  (forall d s, P s -> P (clock_set_duty_cycle d s)) ->
  (forall s, P s -> P (clock_reset s)) ->
  P (clk w) ->
  match cmd_execute cmd w with
  | Done _ w' => P (clk w')
  | _ => True
  end.
Proof.
  intros Hstart Hstop Hstep Hpulse Hfreq Hduty Hreset Hw.
  unfold cmd_execute.
  destruct (strcmp cmd (lit "?") =? 0); [run; auto|].
  destruct (strcmp cmd (lit "start") =? 0); [run; auto|].
  destruct (strcmp cmd (lit "stop") =? 0); [run; auto|].
  destruct (strcmp cmd (lit "step") =? 0).
  { run. destruct (to_uint8 _ =? 0); fields; auto. }
  destruct (strncmp cmd (lit "freq") 4 =? 0).
  { destruct (atoi (drop 5 cmd)) as [n|]; [|run; auto].
    destruct (125000000 <? to_uint32 n); [run; auto|].
    run. destruct (to_uint8 _ =? 0); fields; auto. }
  destruct (strncmp cmd (lit "duty") 4 =? 0).
  { destruct (atoi (drop 5 cmd)) as [n|]; [|run; auto].
    run. destruct (clock_get_timer_type (clk w) =? CLOCK_TIMER_RPT);
      [fields; auto|].
    destruct (100 <? to_uint16 n); [fields; auto|].
    fields. destruct (to_uint8 _ =? 0); fields; auto. }
  destruct (strcmp cmd (lit "reset") =? 0).
  { run. destruct (to_uint8 _ =? 0); fields; auto. }
  destruct (strcmp cmd (lit "reboot") =? 0); [run; auto|].
  destruct (strcmp cmd (lit "clear") =? 0).
  { run. destruct (to_uint8 _ =? 0); fields; auto. }
  run.
  destruct ((strcmp cmd (lit "exit") =? 0) &&
            (clock_get_mode (clk w) =? CLOCK_MONOSTABLE)).
  { fields. destruct (to_uint8 _ =? 0); fields; auto. }
  destruct (clock_get_mode (clk w) =? CLOCK_MONOSTABLE); fields; auto.
Qed.

(** X8: how [cmd_execute] can end, for every line and every state. When
    it returns, the timer is installed again, the pending input has been
    flushed, the line buffer and [index] are untouched, what was on stdout
    is still there and the prompt is the last thing written. It hands over
    to the bootloader only for the line "reboot", after cancelling the
    timer and printing its notice, with no prompt. It is undefined only for
    a line starting with "freq" or "duty" whose argument [atoi] cannot
    represent. *)
Theorem cmd_execute_outcome (cmd : list ascii) (w : world S) :
  match cmd_execute cmd w with
  | Done _ w' =>
      cmd_timer w' = true /\
      stdin w' = flush (stdin w) /\
      cmd_buffer w' = cmd_buffer w /\
      index w' = index w /\
      last (stdout w') = Some (Printf ">>> " []) /\
      stdout w `prefix_of` stdout w'
  | BootSel w' =>
      cstr cmd = lit "reboot" /\
      w' = set_stdout (stdout w ++ [Printf "* Rebooting to BOOTSEL mode\n" []])
             (set_cmd_timer false w)
  | Undefined =>
      (take 4 cmd = lit "freq" \/ take 4 cmd = lit "duty") /\
      atoi (drop 5 cmd) = None
  end.
Proof. exact (cmd_execute_cases cmd w). Qed.

(** X9: the exact-token commands, for a buffer whose string is the token
    (whatever follows its terminator): "?" and "clear" leave the clock as
    it is, "start" calls [clock_pulse_start], "stop" [clock_pulse_stop],
    "step" [clock_step(true)], "reset" [clock_reset], "exit" in Monostable
    mode [clock_step(false)]; each returns. "reboot" does not return. *)
Theorem command_table (cmd : list ascii) (w : world S) :
  (cstr cmd = lit "?" ->
   exists w', cmd_execute cmd w = Done tt w' /\ clk w' = clk w /\
     stdout w' = stdout w ++ [Printf help_text []; Printf ">>> " []]) /\
  (cstr cmd = lit "start" ->
   exists w', cmd_execute cmd w = Done tt w' /\
     clk w' = clock_pulse_start (clk w) /\
     stdout w' = stdout w ++ [Printf "* Clock started\n" []; Printf ">>> " []]) /\
  (cstr cmd = lit "stop" ->
   exists w', cmd_execute cmd w = Done tt w' /\
     clk w' = clock_pulse_stop (clk w) /\
     stdout w' = stdout w ++ [Printf "* Clock stopped\n" []; Printf ">>> " []]) /\
  (cstr cmd = lit "step" ->
   exists w', cmd_execute cmd w = Done tt w' /\
     clk w' = clock_step true (clk w)) /\
  (cstr cmd = lit "reset" ->
   exists w', cmd_execute cmd w = Done tt w' /\ clk w' = clock_reset (clk w)) /\
  (cstr cmd = lit "clear" ->
   exists w', cmd_execute cmd w = Done tt w' /\ clk w' = clk w) /\
  (cstr cmd = lit "exit" -> clock_get_mode (clk w) = CLOCK_MONOSTABLE ->
   exists w', cmd_execute cmd w = Done tt w' /\
     clk w' = clock_step false (clk w)) /\
  (cstr cmd = lit "reboot" ->
   cmd_execute cmd w =
     BootSel (set_stdout
                (stdout w ++ [Printf "* Rebooting to BOOTSEL mode\n" []])
                (set_cmd_timer false w))).
Proof.
  repeat split; intros Hc; unfold cmd_execute.
  - settle Hc. run. eexists. split; [reflexivity|]. fields.
    split; [reflexivity|]. now rewrite <- app_assoc.
  - settle Hc. run. eexists. split; [reflexivity|]. fields.
    split; [reflexivity|]. now rewrite <- app_assoc.
  - settle Hc. run. eexists. split; [reflexivity|]. fields.
    split; [reflexivity|]. now rewrite <- app_assoc.
  - settle Hc. run. destruct (to_uint8 _ =? 0);
      (eexists; split; [reflexivity|]; reflexivity).
  - settle Hc. run. destruct (to_uint8 _ =? 0);
      (eexists; split; [reflexivity|]; reflexivity).
  - settle Hc. run. destruct (to_uint8 _ =? 0);
      (eexists; split; [reflexivity|]; reflexivity).
  - intros Hmode. settle Hc. run.
    apply Z.eqb_eq in Hmode. rewrite Hmode. cbn [andb]. fields.
    destruct (to_uint8 _ =? 0);
      (eexists; split; [reflexivity|]; reflexivity).
  - settle Hc. run. reflexivity.
Qed.

(** [flush] drops the pending bytes up to and including the first
    line feed, and everything when there is none. *)
Lemma flush_to_newline (a b : list ascii) :
  Forall (fun c => c <> "010"%char) a ->
  flush (a ++ "010"%char :: b) = b /\ flush a = [].
Proof.
  induction 1 as [|c a Hc _ [IH1 IH2]]; cbn [flush app].
  - split; reflexivity.
  - destruct (Ascii.eqb_spec c "010"%char); [contradiction|]. auto.
Qed.

Lemma flush_after_command (cmd a b : list ascii) (w w' : world S) :
  cmd_execute cmd w = Done tt w' ->
  Forall (fun c => c <> "010"%char) a ->
  (stdin w = a ++ "010"%char :: b -> stdin w' = b) /\
  (stdin w = a -> stdin w' = []).
Proof.
  intros Hrun Ha. pose proof (cmd_execute_cases cmd w) as Hcase.
  rewrite Hrun in Hcase. destruct Hcase as (_ & Hin & _).
  destruct (flush_to_newline a b Ha) as [H1 H2].
  split; intros Hs; rewrite Hin, Hs; assumption.
Qed.

(** X11: with [cmd_execute] as the dispatch function the console never
    goes deaf: in every state reached after [cmd_init] the poll timer is
    installed. *)
Theorem console_stays_armed (w : world S) :
  reachable the_cmd_data w -> cmd_timer w = true.
Proof.
  induction 1 as [s w Hinit | w bytes _ IH | w s _ IH | w w' b _ IH Ht Hrun].
  - revert Hinit. unfold cmd_init. unfold bind at 1.
    destruct (cmd_boot_message_writes (boot s)) as [out ->].
    run. intros Hinit. now injection Hinit as <-.
  - exact IH.
  - exact IH.
  - destruct (stdin w) as [|c r] eqn:Hin.
    { rewrite callback_timeout in Hrun by trivial. now injection Hrun as _ <-. }
    destruct (is_newline c) eqn:Hn.
    + rewrite (callback_newline the_cmd_data w c r) in Hrun by trivial.
      unfold bind at 1 in Hrun. cbn [cmd_data_cmd_execute the_cmd_data] in Hrun.
      pose proof (cmd_execute_cases (cmd_buffer w) (set_stdin r w)) as Hcase.
      destruct (cmd_execute (cmd_buffer w) (set_stdin r w)) as [[] w1|w1|];
        try discriminate Hrun.
      destruct Hcase as (Harmed & _).
      rewrite after_dispatch_result in Hrun. injection Hrun as _ <-.
      exact Harmed.
    + destruct (is_backspace c) eqn:Hb.
      * destruct (N.eq_dec (index w) 0%N) as [Hi|Hi].
        -- rewrite (callback_backspace_empty the_cmd_data w c r) in Hrun
             by trivial.
           now injection Hrun as _ <-.
        -- rewrite (callback_backspace the_cmd_data w c r) in Hrun by trivial.
           now injection Hrun as _ <-.
      * destruct (N.lt_ge_cases (index w) 255%N) as [Hi|Hi].
        -- rewrite (callback_store the_cmd_data w c r) in Hrun by trivial.
           now injection Hrun as _ <-.
        -- rewrite (callback_full the_cmd_data w c r) in Hrun by trivial.
           now injection Hrun as _ <-.
Qed.

End Commands.

(* ================================================================= *)
(** * cmd.c: line editing *)

Lemma cstr_app_zeros (typed : list ascii) (k : nat) :
  Forall (fun c => c <> NUL) typed ->
  cstr (typed ++ replicate k NUL) = typed.
Proof.
  induction 1 as [|c typed Hc _ IH]; cbn [app cstr].
  - destruct k; reflexivity.
  - destruct (Ascii.eqb_spec c NUL); [contradiction|]. now rewrite IH.
Qed.

Lemma cstr_buffer_of (typed : list ascii) :
  Forall (fun c => c <> NUL) typed -> cstr (buffer_of typed) = typed.
Proof. apply cstr_app_zeros. Qed.

Lemma length_buffer_of (typed : list ascii) :
  (List.length typed <= 256)%nat -> List.length (buffer_of typed) = 256%nat.
Proof.
  intros Hl. unfold buffer_of. rewrite length_app, length_replicate. lia.
Qed.

(** Storing a byte after the characters held. *)
Lemma buffer_of_store (typed : list ascii) (c : ascii) :
  (List.length typed <= 255)%nat ->
  <[List.length typed := c]> (buffer_of typed) = buffer_of (typed ++ [c]).
Proof.
  intros Hl. unfold buffer_of.
  rewrite insert_app_r_alt by lia. rewrite Nat.sub_diag.
  replace (256 - List.length typed)%nat
    with (Datatypes.S (255 - List.length typed)) by lia.
  cbn [replicate]. cbn. rewrite <- app_assoc. cbn [app].
  rewrite length_app. cbn [List.length].
  replace (256 - (List.length typed + 1))%nat
    with (255 - List.length typed)%nat by lia.
  reflexivity.
Qed.

(** Zeroing the last character held. *)
Lemma buffer_of_erase (typed : list ascii) :
  typed <> [] -> (List.length typed <= 255)%nat ->
  <[(List.length typed - 1)%nat := NUL]> (buffer_of typed)
  = buffer_of (take (List.length typed - 1) typed).
Proof.
  intros Hne Hl.
  destruct (exists_last Hne) as (t & c & ->).
  rewrite length_app in *. cbn [List.length] in *.
  replace (List.length t + 1 - 1)%nat with (List.length t) by lia.
  rewrite take_app_length. unfold buffer_of.
  rewrite <- app_assoc. cbn [app].
  rewrite insert_app_r_alt by lia. rewrite Nat.sub_diag. cbn.
  rewrite length_app. cbn [List.length].
  replace (256 - List.length t)%nat
    with (Datatypes.S (256 - (List.length t + 1))) by lia.
  reflexivity.
Qed.

Section LineEditing.

Context {S : Type} `{Clock S}.

Lemma length_edit (typed : list ascii) (c : ascii) :
  (List.length typed <= 255)%nat -> (List.length (edit typed c) <= 255)%nat.
Proof.
  intros Hl. unfold edit. destruct (is_backspace c).
  - rewrite length_take. lia.
  - destruct (Nat.ltb_spec (List.length typed) 255); [|exact Hl].
    rewrite length_app. cbn. lia.
Qed.

(** One run of the callback on a byte that does not end the line edits
    the characters held, and touches neither the clock nor the timer. *)
Lemma callback_edit (cd : cmd_data_t) (w : world S) (typed r : list ascii)
    (c : ascii) :
  stdin w = c :: r -> is_newline c = false ->
  cmd_buffer w = buffer_of typed ->
  index w = N.of_nat (List.length typed) ->
  (List.length typed <= 255)%nat ->
  exists w' : world S,
    cmd_timer_callback cd w = Done true w' /\
    cmd_buffer w' = buffer_of (edit typed c) /\
    index w' = N.of_nat (List.length (edit typed c)) /\
    stdin w' = r /\ clk w' = clk w /\ cmd_timer w' = cmd_timer w.
Proof.
  intros Hin Hn Hbuf Hidx Hl. unfold edit.
  destruct (is_backspace c) eqn:Hb.
  - destruct typed as [|c0 t].
    + rewrite (callback_backspace_empty cd w c r) by trivial.
      eexists. split; [reflexivity|]. cbn. auto.
    + assert (Hi : index w <> 0%N) by (rewrite Hidx; cbn; lia).
      rewrite (callback_backspace cd w c r) by trivial.
      eexists. split; [reflexivity|].
      cbn [cmd_buffer index stdin clk cmd_timer].
      rewrite Hbuf, Hidx.
      replace (N.to_nat (N.of_nat (List.length (c0 :: t)) - 1))
        with (List.length (c0 :: t) - 1)%nat by lia.
      rewrite buffer_of_erase by (trivial; discriminate).
      rewrite length_take. repeat split; trivial. lia.
  - destruct (Nat.ltb_spec (List.length typed) 255) as [Hlt|Hge].
    + rewrite (callback_store cd w c r) by (trivial; lia).
      eexists. split; [reflexivity|].
      cbn [cmd_buffer index stdin clk cmd_timer].
      rewrite Hbuf, Hidx, Nat2N.id, buffer_of_store by lia.
      rewrite length_app. cbn [List.length]. repeat split; trivial. lia.
    + rewrite (callback_full cd w c r) by (trivial; lia).
      eexists. split; [reflexivity|]. cbn. auto.
Qed.

Lemma poll_edits (cd : cmd_data_t) (bytes rest typed : list ascii)
    (w : world S) :
  Forall (fun c => is_newline c = false) bytes ->
  stdin w = bytes ++ rest ->
  cmd_timer w = true ->
  cmd_buffer w = buffer_of typed ->
  index w = N.of_nat (List.length typed) ->
  (List.length typed <= 255)%nat ->
  exists w' : world S,
    poll cd (List.length bytes) w = Done tt w' /\
    cmd_buffer w' = buffer_of (fold_left edit bytes typed) /\
    index w' = N.of_nat (List.length (fold_left edit bytes typed)) /\
    (List.length (fold_left edit bytes typed) <= 255)%nat /\
    stdin w' = rest /\ clk w' = clk w /\ cmd_timer w' = true.
Proof.
  intros Hnl. revert typed w.
  induction Hnl as [|c bytes Hc _ IH]; intros typed w Hin Ht Hbuf Hidx Hl.
  - exists w. cbn [poll List.length fold_left]. unfold ret. auto 10.
  - cbn [List.length poll fold_left]. unfold bind at 1, tick. rewrite Ht.
    unfold bind at 1.
    destruct (callback_edit cd w typed (bytes ++ rest) c)
      as (w1 & Hrun & Hbuf1 & Hidx1 & Hin1 & Hclk1 & Ht1); trivial.
    rewrite Hrun. unfold ret at 1.
    destruct (IH (edit typed c) w1) as (w' & Hrun' & Hb' & Hi' & Hl' & Hs' & Hc' & Ht');
      trivial.
    + congruence.
    + now apply length_edit.
    + exists w'. split; [exact Hrun'|]. repeat split; trivial. congruence.
Qed.

(** X12: the callback implements the line editor. From a buffer that holds
    the characters [typed], any run of bytes without a newline or carriage
    return, read one per timer period, leaves the buffer holding [typed]
    edited by each byte in turn (backspace and delete remove the last
    character, nothing when none is held; another byte is appended, or
    dropped once 255 are held), NUL after them, with [index] their number;
    nothing is dispatched, the clock and the timer are untouched. *)
Theorem typing_edits (cd : cmd_data_t) (bytes rest typed : list ascii)
    (w : world S) :
  Forall (fun c => is_newline c = false) bytes ->
  stdin w = bytes ++ rest ->
  cmd_timer w = true ->
  cmd_buffer w = buffer_of typed ->
  index w = N.of_nat (List.length typed) ->
  (List.length typed <= 255)%nat ->
  exists w' : world S,
    poll cd (List.length bytes) w = Done tt w' /\
    cmd_buffer w' = buffer_of (fold_left edit bytes typed) /\
    index w' = N.of_nat (List.length (fold_left edit bytes typed)) /\
    (List.length (fold_left edit bytes typed) <= 255)%nat /\
    stdin w' = rest /\ clk w' = clk w /\ cmd_timer w' = true.
Proof. exact (poll_edits cd bytes rest typed w). Qed.

Lemma poll_app (cd : cmd_data_t) (n m : nat) (w : world S) :
  poll cd (n + m) w = bind (poll cd n) (fun _ => poll cd m) w.
Proof.
  revert w. induction n as [|n IH]; intros w; [reflexivity|].
  cbn [Nat.add poll]. unfold bind at 1 2 3.
  destruct (tick cd w) as [[] w1|w1|]; [|reflexivity|reflexivity].
  apply IH.
Qed.

(** X13: what is typed is what is executed. From an empty line buffer (as
    at boot and after every dispatch), a run of bytes followed by a newline
    or carriage return makes the callback call the dispatch function once,
    on the buffer that holds the edited characters; when none of them is
    NUL that buffer's string is exactly those characters. If the call
    returns, the buffer is zeroed and [index] reset; if it does not, the
    poll ends as the call ended. *)
Theorem typed_line_dispatched (cd : cmd_data_t) (bytes rest : list ascii)
    (nl : ascii) (w : world S) :
  Forall (fun c => is_newline c = false) bytes ->
  is_newline nl = true ->
  stdin w = bytes ++ nl :: rest ->
  cmd_timer w = true ->
  cmd_buffer w = replicate 256 NUL ->
  index w = 0%N ->
  exists w1 : world S,
    cmd_buffer w1 = buffer_of (fold_left edit bytes []) /\
    (Forall (fun c => c <> NUL) (fold_left edit bytes []) ->
     cstr (cmd_buffer w1) = fold_left edit bytes []) /\
    stdin w1 = rest /\ clk w1 = clk w /\
    poll cd (List.length bytes + 1) w =
      match cmd_data_cmd_execute cd (cmd_buffer w1) w1 with
      | Done _ w2 =>
          Done tt (set_index 0%N (set_cmd_buffer (replicate 256 NUL) w2))
      | BootSel w2 => BootSel w2
      | Undefined => Undefined
      end.
Proof.
  intros Hnl Hn Hin Ht Hbuf Hidx.
  destruct (poll_edits cd bytes (nl :: rest) [] w)
    as (w0 & Hrun & Hb0 & Hi0 & Hl0 & Hs0 & Hc0 & Ht0); trivial.
  { cbn. lia. }
  exists (set_stdin rest w0).
  cbn [cmd_buffer stdin clk set_stdin].
  split; [exact Hb0|]. split.
  { intros Hnul. rewrite Hb0. now apply cstr_buffer_of. }
  split; [reflexivity|]. split; [exact Hc0|].
  rewrite poll_app. unfold bind at 1. rewrite Hrun.
  cbn [poll]. unfold bind at 1, tick. rewrite Ht0. unfold bind at 1.
  rewrite (callback_newline cd w0 nl rest) by trivial.
  unfold bind at 1.
  destruct (cmd_data_cmd_execute cd (cmd_buffer w0) (set_stdin rest w0))
    as [[] w2|w2|]; reflexivity.
Qed.

(** X10: what happens to a burst. After the timer period in which a line
    is dispatched to [cmd_execute] and the command returns, the line buffer
    is empty again and the input that was pending behind the line's
    terminator has been discarded up to and including its first line feed,
    all of it when it holds none. So a line that follows in the same burst
    and ends in a line feed is dropped unread; after a carriage return
    followed by a line feed only that line feed is dropped, and what
    follows it stays pending. *)
Theorem burst_after_line (l1 pending : list ascii) (nl : ascii)
    (w w' : world S) :
  Forall (fun c => is_newline c = false) l1 ->
  is_newline nl = true ->
  stdin w = l1 ++ nl :: pending ->
  cmd_timer w = true ->
  cmd_buffer w = replicate 256 NUL ->
  index w = 0%N ->
  poll the_cmd_data (List.length l1 + 1) w = Done tt w' ->
  cmd_buffer w' = replicate 256 NUL /\ index w' = 0%N /\
  cmd_timer w' = true /\
  stdin w' = flush pending /\
  (forall l2 rest : list ascii,
     Forall (fun c => c <> "010"%char) l2 ->
     pending = l2 ++ "010"%char :: rest -> stdin w' = rest) /\
  (forall more : list ascii,
     pending = "010"%char :: more -> stdin w' = more) /\
  (Forall (fun c => c <> "010"%char) pending -> stdin w' = []).
Proof.
  intros Hl1 Hnl Hin Ht Hbuf Hidx Hrun.
  destruct (poll_edits the_cmd_data l1 (nl :: pending) [] w)
    as (w0 & Hrun0 & _ & _ & _ & Hs0 & _ & Ht0); trivial.
  { cbn. lia. }
  rewrite poll_app in Hrun. unfold bind at 1 in Hrun. rewrite Hrun0 in Hrun.
  cbn [poll] in Hrun. unfold bind at 1, tick in Hrun. rewrite Ht0 in Hrun.
  unfold bind at 1 in Hrun.
  rewrite (callback_newline the_cmd_data w0 nl pending) in Hrun by trivial.
  unfold bind at 1 in Hrun. cbn [cmd_data_cmd_execute the_cmd_data] in Hrun.
  pose proof (cmd_execute_cases (cmd_buffer w0) (set_stdin pending w0)) as Hcase.
  destruct (cmd_execute (cmd_buffer w0) (set_stdin pending w0))
    as [[] w2|w2|]; try discriminate Hrun.
  destruct Hcase as (Harmed & Hflush & _).
  rewrite after_dispatch_result in Hrun. unfold ret in Hrun.
  assert (Hw : w' = set_index 0%N (set_cmd_buffer (replicate 256 NUL) w2))
    by congruence.
  cbn [stdin set_stdin] in Hflush.
  assert (Hs : stdin w' = flush pending) by (rewrite Hw; exact Hflush).
  split; [rewrite Hw; reflexivity|]. split; [rewrite Hw; reflexivity|].
  split; [rewrite Hw; exact Harmed|]. split; [exact Hs|].
  split; [|split].
  - intros l2 rest Hl2 ->. rewrite Hs.
    now destruct (flush_to_newline l2 rest Hl2).
  - intros more ->. rewrite Hs. cbn [flush].
    reflexivity.
  - intros Hp. rewrite Hs. now destruct (flush_to_newline pending [] Hp).
Qed.

End LineEditing.

(* ================================================================= *)
(** * The console at concrete inputs *)

Lemma command_table_witness :
  exists w' : world GeneratorState,
    cmd_execute (line "stop") (boot (startup RepeatingTimer 1)) = Done tt w' /\
    clk w' = clock_pulse_stop (clk (boot (startup RepeatingTimer 1))) /\
    stdout w' = stdout (boot (startup RepeatingTimer 1)) ++
                [Printf "* Clock stopped\n" []; Printf ">>> " []].
Proof.
  apply (command_table (line "stop") (boot (startup RepeatingTimer 1))).
  reflexivity.
Defined.

Lemma console_stays_armed_witness :
  exists w : world GeneratorState,
    cmd_init (boot (startup RepeatingTimer 1)) = Done tt w /\
    cmd_timer w = true.
Proof.
  assert (Hex : exists w : world GeneratorState,
            cmd_init (boot (startup RepeatingTimer 1)) = Done tt w)
    by (eexists; vm_compute; reflexivity).
  destruct Hex as [w Hinit]. exists w. split; [exact Hinit|].
  apply (console_stays_armed w).
  exact (reach_init the_cmd_data (startup RepeatingTimer 1) w Hinit).
Defined.

Lemma typing_edits_witness :
  exists w' : world GeneratorState,
    poll the_cmd_data 3
      (set_stdin (lit "ab" ++ ["127"%char])
         (set_cmd_timer true (boot (startup RepeatingTimer 1))))
    = Done tt w' /\
    cmd_buffer w' = buffer_of (lit "a") /\
    index w' = 1%N.
Proof.
  destruct (typing_edits the_cmd_data (lit "ab" ++ ["127"%char]) [] []
              (set_stdin (lit "ab" ++ ["127"%char])
                 (set_cmd_timer true (boot (startup RepeatingTimer 1)))))
    as (w' & Hrun & Hbuf & Hidx & _).
  - repeat constructor.
  - cbn [stdin set_stdin]. now rewrite app_nil_r.
  - reflexivity.
  - reflexivity.
  - reflexivity.
  - cbn. lia.
  - exists w'. split; [exact Hrun|]. split; [exact Hbuf | exact Hidx].
Defined.

Lemma typed_line_dispatched_witness :
  exists w1 : world GeneratorState,
    cmd_buffer w1 = buffer_of (lit "stop") /\
    cstr (cmd_buffer w1) = lit "stop" /\
    stdin w1 = [].
Proof.
  destruct (typed_line_dispatched the_cmd_data (lit "stop") [] "013"%char
              (set_stdin (lit "stop" ++ ["013"%char])
                 (set_cmd_timer true (boot (startup RepeatingTimer 1)))))
    as (w1 & Hbuf & Hstr & Hin & _).
  - repeat constructor.
  - reflexivity.
  - reflexivity.
  - reflexivity.
  - reflexivity.
  - reflexivity.
  - exists w1. split; [exact Hbuf|]. split; [|exact Hin].
    apply Hstr. repeat constructor; discriminate.
Defined.

(* ================================================================= *)
(** * The argument of freq and duty *)

(** X14: the byte that follows the four letters of "freq" or "duty" is
    skipped unread: the command is matched on its first four bytes and its
    argument read from the sixth on, so "freq 5", "freq=5" and "freqx5" do
    the same, whatever the state. *)
Theorem fifth_byte_skipped (S : Type) (C : Clock S) (sep sep' : ascii)
    (arg : list ascii) (w : world S) :
  cmd_execute (lit "freq" ++ sep :: arg) w =
    cmd_execute (lit "freq" ++ sep' :: arg) w /\
  cmd_execute (lit "duty" ++ sep :: arg) w =
    cmd_execute (lit "duty" ++ sep' :: arg) w.
Proof.
  split; unfold cmd_execute.
  - change (lit "freq" ++ sep :: arg)
      with ("f" :: "r" :: "e" :: "q" :: sep :: arg)%char.
    change (lit "freq" ++ sep' :: arg)
      with ("f" :: "r" :: "e" :: "q" :: sep' :: arg)%char.
    repeat match goal with
      | |- context [strcmp ?cmd (lit ?t) =? 0] =>
          rewrite (strcmp_differs cmd (lit t)) by (cbn; discriminate)
      end.
    rewrite !(strncmp4_same _ (lit "freq")) by
      (trivial; repeat constructor; discriminate).
    cbn [drop]. reflexivity.
  - change (lit "duty" ++ sep :: arg)
      with ("d" :: "u" :: "t" :: "y" :: sep :: arg)%char.
    change (lit "duty" ++ sep' :: arg)
      with ("d" :: "u" :: "t" :: "y" :: sep' :: arg)%char.
    repeat match goal with
      | |- context [strcmp ?cmd (lit ?t) =? 0] =>
          rewrite (strcmp_differs cmd (lit t)) by (cbn; discriminate)
      end.
    rewrite !(strncmp4_differs _ (lit "freq")) by
      (trivial; repeat constructor; discriminate).
    rewrite !(strncmp4_same _ (lit "duty")) by
      (trivial; repeat constructor; discriminate).
    cbn [drop]. reflexivity.
Qed.

Lemma burst_after_line_witness :
  exists w' : world GeneratorState,
    poll the_cmd_data 5
      (set_stdin (lit "stop" ++ "010"%char :: lit "start" ++ ["010"%char])
         (set_cmd_timer true (boot (startup RepeatingTimer 1))))
    = Done tt w' /\
    index w' = 0%N /\ stdin w' = [].
Proof.
  assert (Hex : exists w' : world GeneratorState,
            poll the_cmd_data 5
              (set_stdin (lit "stop" ++ "010"%char :: lit "start" ++ ["010"%char])
                 (set_cmd_timer true (boot (startup RepeatingTimer 1))))
            = Done tt w')
    by (eexists; vm_compute; reflexivity).
  destruct Hex as [w' Hrun]. exists w'. split; [exact Hrun|].
  destruct (burst_after_line (lit "stop") (lit "start" ++ ["010"%char])
              "010"%char
              (set_stdin (lit "stop" ++ "010"%char :: lit "start" ++ ["010"%char])
                 (set_cmd_timer true (boot (startup RepeatingTimer 1))))
              w') as (_ & Hidx & _ & _ & Hline & _).
  - repeat constructor.
  - reflexivity.
  - reflexivity.
  - reflexivity.
  - reflexivity.
  - reflexivity.
  - exact Hrun.
  - split; [exact Hidx|].
    apply (Hline (lit "start") []); [repeat constructor; discriminate|].
    reflexivity.
Defined.

(* ================================================================= *)
(** * The lower bound of the frequency *)

Lemma setFrequency_keeps (hz : Z) (s : GeneratorState) :
  frequency_ok s -> frequency_ok (setFrequency hz s).
Proof.
  unfold frequency_ok, setFrequency. intros [Hf Hs].
  destruct (Z.ltb_spec 125000000 hz); [auto|].
  destruct (Z.ltb_spec hz 1); cbn; auto.
Qed.

Lemma setDutyCycle_keeps (pct : Z) (s : GeneratorState) :
  frequency_ok s -> frequency_ok (setDutyCycle pct s).
Proof.
  unfold frequency_ok, setDutyCycle. intros [Hf Hs].
  destruct (outputKind s); [auto|]. destruct (100 <? pct); cbn; auto.
Qed.

Lemma setFrequency_rejects (hz : Z) (s : GeneratorState) :
  hz <= 0 -> setFrequency hz s = s.
Proof.
  intros Hhz. unfold setFrequency.
  destruct (Z.ltb_spec hz 1); [|lia]. now rewrite orb_true_r.
Qed.

(** C3: the frequency setter rejects 0 and negative inputs, so the
    frequency is at least 1 at all times and the period computation never
    runs on 0. On the clock module as described: every console command
    that returns keeps the frequency (and the source a reset returns to) at
    1 or above, and a freq command whose argument is 0 or negative leaves
    the clock's state as it was. In main.c, for a build whose [CLOCK_FREQ]
    fits [int]: in every state reached the frequency is at least 1 and
    [1000 / frequency] is defined. *)
Theorem frequency_bounded_below :
  (forall (cmd : list ascii) (w w' : world GeneratorState),
     frequency_ok (clk w) ->
     cmd_execute cmd w = Done tt w' ->
     frequency_ok (clk w')) /\
  (forall (arg : list ascii) (sep : ascii) (n : Z) (w : world GeneratorState),
     atoi arg = Some n -> n <= 0 ->
     exists w' : world GeneratorState,
       cmd_execute (lit "freq" ++ sep :: arg) w = Done tt w' /\
       clk w' = clk w) /\
  (forall (CLOCK_FREQ CLOCK_DEBUG : Z) (p : Main.pc) (g : Main.globals),
     CLOCK_FREQ <= INT_MAX ->
     Main.running CLOCK_FREQ CLOCK_DEBUG p g ->
     1 <= Main.frequency g /\
     Main.sleep_in_ms g = Some (1000 / Main.frequency g)).
Proof.
  split; [|split].
  - intros cmd w w' Hok Hrun.
    pose proof (cmd_execute_keeps frequency_ok cmd w) as Hkeep.
    rewrite Hrun in Hkeep. apply Hkeep; trivial.
    + intros hz s. apply setFrequency_keeps.
    + intros d s. apply setDutyCycle_keeps.
    + intros s [_ Hs]. split; exact Hs.
  - intros arg sep n w Ha Hn.
    rewrite (cmd_execute_freq arg sep n w Ha).
    destruct (Z.ltb_spec 125000000 (to_uint32 n)) as [Hbig|Hsmall].
    + eexists. split; reflexivity.
    + destruct (Z.eq_dec n 0) as [->|Hnz].
      * destruct (info_then_run
                    (set_clk (clock_set_freq_hz (to_uint32 0) (clk w))
                       (set_cmd_timer false w)))
          as (w' & Hrun & Hclk & _).
        exists w'. split; [exact Hrun|]. rewrite Hclk. cbn.
        apply setFrequency_rejects. reflexivity.
      * exfalso. pose proof (atoi_in_int arg n Ha) as Hint.
        unfold to_uint32, INT_MIN in *.
        replace n with (n + 2 ^ 32 + (-1) * 2 ^ 32) in Hsmall by lia.
        rewrite Z.mod_add in Hsmall by lia.
        rewrite Z.mod_small in Hsmall by lia. lia.
  - intros CLOCK_FREQ CLOCK_DEBUG p g Hint Hrun.
    destruct (running_ok CLOCK_FREQ CLOCK_DEBUG Hint p g Hrun) as (Hf & _).
    split; [exact Hf|]. unfold Main.sleep_in_ms.
    destruct (Z.eqb_spec (Main.frequency g) 0); [lia|].
    now rewrite Z.quot_div_nonneg by lia.
Qed.

Lemma frequency_bounded_below_witness :
  exists w' : world GeneratorState,
    cmd_execute (lit "freq" ++ " "%char :: lit "0")
      (boot (startup RepeatingTimer 1)) = Done tt w' /\
    clk w' = clk (boot (startup RepeatingTimer 1)).
Proof.
  destruct frequency_bounded_below as (_ & Hreject & _).
  apply (Hreject (lit "0") " "%char 0 (boot (startup RepeatingTimer 1))).
  - reflexivity.
  - lia.
Defined.
